(** * Embodied-carbon emission models of [act/core]

    A shallow embedding of the nine component models
    ([active_model.py], [capacitor_model.py], [connector_model.py],
    [diode_model.py], [inductor_model.py], [other_model.py],
    [pcb_model.py], [resistor_model.py], [switch_model.py]) and the
    properties their specification states about factor resolution,
    mode selection and the final arithmetic.

    Part I holds the definitions: the fragment of the Python runtime the
    models rely on (exceptions, [exit], logging, insertion-ordered
    dictionaries), the quantity system they consume, and one module per
    model.  Part II holds the lemmas and the theorems. *)

From Stdlib Require Import PrimFloat.
From Stdlib Require Import ZArith QArith Qcanon.
From stdpp Require Import base decidable option list numbers strings.

Set Default Proof Using "Type".

(* ================================================================== *)
(** * Part I.  Definitions                                             *)
(* ================================================================== *)

(** ** Python runtime: outcomes, logging, control flow *)

(** The exceptions the models can raise. *)
Inductive exn := AssertionError | IndexError | KeyError | AttributeError | TypeError.

(** What running a method to completion produces: a value, an uncaught
    exception, or the termination of the process by [exit(code)]. *)
Inductive outcome (A : Type) :=
  | Return (a : A)
  | Raise (e : exn)
  | SystemExit (code : Z).
Arguments Return {A} a.
Arguments Raise {A} e.
Arguments SystemExit {A} code.

(** The calls made on [log], in order; the text of a message is not kept. *)
Inductive level := DEBUG | WARN | ERROR | CRITICAL.

(** A computation: the log lines written so far and the outcome. *)
Definition M (A : Type) : Type := list level * outcome A.

Definition ret {A} (a : A) : M A := ([], Return a).
Definition raise {A} (e : exn) : M A := ([], Raise e).
Definition exit {A} (code : Z) : M A := ([], SystemExit code).
Definition log (lv : level) : M unit := ([lv], Return tt).

Definition bind {A B} (m : M A) (f : A -> M B) : M B :=
  match m with
  | (l, Return a) => let '(l', r) := f a in (l ++ l', r)
  | (l, Raise e) => (l, Raise e)
  | (l, SystemExit c) => (l, SystemExit c)
  end.

Notation "x <- m ;; k" := (bind m (fun x => k))
  (at level 100, m at next level, right associativity).
Notation "m ;;; k" := (bind m (fun _ => k))
  (at level 100, right associativity).

(** [assert b, ...] *)
Definition assert (b : bool) : M unit :=
  if b then ret tt else raise AssertionError.

(** [xs[0]] on a list. *)
Definition getitem0 {A} (xs : list A) : M A :=
  match xs with
  | [] => raise IndexError
  | x :: _ => ret x
  end.

Definition outcome_of {A} (m : M A) : outcome A := snd m.

(** The call returned a value (it neither raised nor exited). *)
Definition returns {A} (m : M A) (a : A) : Prop := outcome_of m = Return a.

(** ** Dictionaries

    A Python [dict] keeps its keys in insertion order, and
    [list(d.values())[0]] (resistor and inductor fallback) depends on that
    order, so a dictionary is an association list without duplicate keys:
    assigning to a present key replaces its value in place, assigning to
    a new key appends. *)

Definition dict (K V : Type) : Type := list (K * V).

Section dict.
Context {K V : Type} `{EqDecision K}.

(** [d.get(k)] *)
Fixpoint dict_get (d : dict K V) (k : K) : option V :=
  match d with
  | [] => None
  | (k', v) :: d' => if decide (k = k') then Some v else dict_get d' k
  end.

(** [k in d] *)
Definition dict_contains (k : K) (d : dict K V) : bool :=
  match dict_get d k with Some _ => true | None => false end.

(** [d[k] = v] *)
Fixpoint dict_setitem (d : dict K V) (k : K) (v : V) : dict K V :=
  match d with
  | [] => [(k, v)]
  | (k', v') :: d' =>
      if decide (k = k') then (k', v) :: d' else (k', v') :: dict_setitem d' k v
  end.

(** [d[k]] *)
Definition dict_getitem (d : dict K V) (k : K) : M V :=
  match dict_get d k with
  | Some v => ret v
  | None => raise KeyError
  end.

(** [d.get(k, dflt)]; the caller has already evaluated [dflt]. *)
Definition dict_get_default (d : dict K V) (k : K) (dflt : V) : V :=
  match dict_get d k with Some v => v | None => dflt end.

(** [d.values()] *)
Definition dict_values (d : dict K V) : list V := map snd d.

(** [not d] *)
Definition dict_is_empty (d : dict K V) : bool :=
  match d with [] => true | _ :: _ => false end.
End dict.

(** ** The quantity system ([act/core/units.py], not part of the sources)

    The models consume dimensioned values through [units(...)], the unit
    constants [kg], [mm2] and [g], [check] and the arithmetic operators.
    A dimension is a vector of exponents over mass, length and time; a
    quantity is a magnitude in base units with its dimension.  Magnitudes
    are exact rationals: rounding of machine floating point is outside
    this model. *)

(** Modelled from the spec: the dimension of a value of the quantity/unit
    system ("mass, area, length, energy-intensity, dimensionless-carbon"),
    as exponents of the base dimensions. *)
Record Dim := mkDim { mass_exp : Z; length_exp : Z; time_exp : Z }.

(** Modelled from the spec: a "dimensioned numeric value" of the
    quantity/unit system, a magnitude with its dimension. *)
Record Quantity := mkQuantity { magnitude : Qc; dimensionality : Dim }.

Global Instance Dim_eq_dec : EqDecision Dim.
Proof. solve_decision. Defined.
Global Instance Quantity_eq_dec : EqDecision Quantity.
Proof. solve_decision. Defined.

(** The dimension of a product. *)
Definition dim_mul (a b : Dim) : Dim :=
  mkDim (mass_exp a + mass_exp b) (length_exp a + length_exp b) (time_exp a + time_exp b).

Definition dimensionless : Dim := mkDim 0 0 0.
(** The dimension of the unit [kg] (mass). *)
Definition kg : Dim := mkDim 1 0 0.
(** The dimension of the unit [mm2] (area). *)
Definition mm2 : Dim := mkDim 0 2 0.
(** The dimension of a length, e.g. of a thickness in [mm]. *)
Definition mm : Dim := mkDim 0 1 0.

(** Modelled from the spec: the "[check(dimension)] predicate" of the
    quantity/unit system, [q.check(d)]. *)
Definition check (q : Quantity) (d : Dim) : bool := bool_decide (dimensionality q = d).

(** Modelled from the spec: the "standard arithmetic" [a * b] of the
    quantity/unit system, which "propagates units"; a product never
    fails. *)
Definition qmul (a b : Quantity) : Quantity :=
  mkQuantity (magnitude a * magnitude b)%Qc (dim_mul (dimensionality a) (dimensionality b)).

(** Modelled from the spec: [q * n] of the quantity/unit system for a
    Python [int] [n]. *)
Definition qmul_int (q : Quantity) (n : Z) : Quantity :=
  mkQuantity (magnitude q * Qc_of_Z n)%Qc (dimensionality q).

(** Modelled from the spec: [number * q] of the quantity/unit system, as
    in [0.03 * g]. *)
Definition qscale (c : Qc) (q : Quantity) : Quantity :=
  mkQuantity (c * magnitude q)%Qc (dimensionality q).



Declare Scope quantity_scope.
Delimit Scope quantity_scope with qty.
Bind Scope quantity_scope with Quantity.
Infix "*" := qmul : quantity_scope.
Infix "*z" := qmul_int (at level 40, left associativity) : quantity_scope.

(** A mass of [m] kilograms, [units("<m> kg")]. *)
Definition kilograms (m : Qc) : Quantity := mkQuantity m kg.
(** The unit [g], one gram. *)
Definition g : Quantity := mkQuantity (Q2Qc (1 # 1000)) kg.

(** ** The carbon value type ([act/core/carbon.py], not part of the sources) *)

(** Modelled from the spec: the source-category tag of the carbon value
    type, "one of a fixed enumeration: fabrication, active,
    passives-generic, connector, inductor, switch, other". *)
Inductive SourceType :=
  FABRICATION | ACTIVE | PASSIVES | CONNECTOR | INDUCTOR | SWITCH | OTHER.

(** Modelled from the spec: the carbon value type, which "wraps a computed
    quantity together with a source-category tag". *)
Record Carbon := mkCarbon { quantity : Quantity; source : SourceType }.

Global Instance SourceType_eq_dec : EqDecision SourceType.
Proof. solve_decision. Defined.
Global Instance Carbon_eq_dec : EqDecision Carbon.
Proof. solve_decision. Defined.
Global Instance exn_eq_dec : EqDecision exn.
Proof. solve_decision. Defined.
Global Instance level_eq_dec : EqDecision level.
Proof. solve_decision. Defined.
Global Instance outcome_eq_dec {A} `{EqDecision A} : EqDecision (outcome A).
Proof. solve_decision. Defined.

(** ** Configuration documents

    What [yaml.load] hands to a constructor: a mapping, in document order,
    from scalar keys (YAML strings or integers) to values.  The factor
    expressions are kept as the quantities [units(...)] parses them to;
    a document whose literals do not parse is a load failure outside the
    models. *)

Inductive ykey := KStr (s : string) | KInt (z : Z).

Global Instance ykey_eq_dec : EqDecision ykey.
Proof. solve_decision. Defined.

Definition document := dict ykey Quantity.

(** The loop every mass-based model and the resistor model run over the
    document:
<<
    for key, factor in model_data.items():
        try:
            self.emission_factors[T(key)] = units(factor)
        except ValueError:
            log.warn(...)
>>
    [of_value k] is the enumeration lookup [T(k)], [None] when it raises
    [ValueError]. *)
Fixpoint load_factors {T} `{EqDecision T} (of_value : ykey -> option T)
    (items : document) (emission_factors : dict T Quantity) : M (dict T Quantity) :=
  match items with
  | [] => ret emission_factors
  | (key, factor) :: rest =>
      emission_factors' <-
        match of_value key with
        | Some t => ret (dict_setitem emission_factors t factor)
        | None => log WARN ;;; ret emission_factors
        end ;;
      load_factors of_value rest emission_factors'
  end.

Local Open Scope string_scope.

(** ** Mass-based models *)

(** *** [active_model.py] *)
Module Active.
Inductive ActiveType := TRANSISTOR_BJT | TRANSISTOR_MOSFET | ACTIVE_GENERIC | GENERIC.

Global Instance ActiveType_eq_dec : EqDecision ActiveType.
Proof. solve_decision. Defined.

(** [ActiveType(value)] *)
Definition of_value (k : ykey) : option ActiveType :=
  match k with
  | KStr s =>
      if bool_decide (s = "transistor_bjt") then Some TRANSISTOR_BJT
      else if bool_decide (s = "transistor_mosfet") then Some TRANSISTOR_MOSFET
      else if bool_decide (s = "active_generic") then Some ACTIVE_GENERIC
      else if bool_decide (s = "generic") then Some GENERIC
      else None
  | KInt _ => None
  end.

Record ActiveModel := mk { emission_factors : dict ActiveType Quantity }.

Definition __init__ (model_data : document) : M ActiveModel :=
  emission_factors <- load_factors of_value model_data [] ;;
  emission_factors <-
    (if negb (dict_contains GENERIC emission_factors) then
       if dict_contains ACTIVE_GENERIC emission_factors then
         v <- dict_getitem emission_factors ACTIVE_GENERIC ;;
         ret (dict_setitem emission_factors GENERIC v)
       else
         log ERROR ;;; exit (-1)
     else ret emission_factors) ;;
  ret (mk emission_factors).

(** [active_type] defaults to [GENERIC], [n_components] to [1]. *)
Definition get_carbon (self : ActiveModel) (weight : Quantity)
    (active_type : ActiveType) (n_components : Z) : M Carbon :=
  assert (check weight kg) ;;;
  emission_factor <-
    (if negb (dict_contains active_type (emission_factors self)) then
       log WARN ;;;
       dict_getitem (emission_factors self) GENERIC
     else
       dict_getitem (emission_factors self) active_type) ;;
  let total_carbon := (weight * emission_factor *z n_components)%qty in
  log DEBUG ;;;
  ret (mkCarbon total_carbon ACTIVE).
End Active.

(** *** [switch_model.py] *)
Module Switch.
Inductive SwitchType := GENERIC.

Global Instance SwitchType_eq_dec : EqDecision SwitchType.
Proof. solve_decision. Defined.

(** [SwitchType(value)] *)
Definition of_value (k : ykey) : option SwitchType :=
  match k with
  | KStr s => if bool_decide (s = "generic") then Some GENERIC else None
  | KInt _ => None
  end.

Record SwitchModel := mk { emission_factors : dict SwitchType Quantity }.

Definition __init__ (model_data : document) : M SwitchModel :=
  emission_factors <- load_factors of_value model_data [] ;;
  (if negb (dict_contains GENERIC emission_factors) then
     log ERROR ;;; exit (-1)
   else ret tt) ;;;
  ret (mk emission_factors).

(** [switch_type] defaults to [GENERIC], [n_switches] to [1]. *)
Definition get_carbon (self : SwitchModel) (weight : Quantity)
    (switch_type : SwitchType) (n_switches : Z) : M Carbon :=
  assert (check weight kg) ;;;
  emission_factor <-
    (if negb (dict_contains switch_type (emission_factors self)) then
       log WARN ;;;
       dict_getitem (emission_factors self) GENERIC
     else
       dict_getitem (emission_factors self) switch_type) ;;
  let total_carbon := (weight * emission_factor *z n_switches)%qty in
  log DEBUG ;;;
  ret (mkCarbon total_carbon SWITCH).
End Switch.

(** *** [connector_model.py] *)
Module Connector.
Inductive ConnectorType := PCI | PERIPHERAL.

Global Instance ConnectorType_eq_dec : EqDecision ConnectorType.
Proof. solve_decision. Defined.

(** [ConnectorType(value)] *)
Definition of_value (k : ykey) : option ConnectorType :=
  match k with
  | KStr s =>
      if bool_decide (s = "pci") then Some PCI
      else if bool_decide (s = "peripheral") then Some PERIPHERAL
      else None
  | KInt _ => None
  end.

Record ConnectorModel := mk { emission_factors : dict ConnectorType Quantity }.

Definition __init__ (model_data : document) : M ConnectorModel :=
  emission_factors <- load_factors of_value model_data [] ;;
  (if negb (dict_contains PERIPHERAL emission_factors) then
     log ERROR ;;; exit (-1)
   else ret tt) ;;;
  (if negb (dict_contains PCI emission_factors) then
     log ERROR ;;; exit (-1)
   else ret tt) ;;;
  ret (mk emission_factors).

(** [connector_type] defaults to [PERIPHERAL], [n_connectors] to [1]. *)
Definition get_carbon (self : ConnectorModel) (weight : Quantity)
    (connector_type : ConnectorType) (n_connectors : Z) : M Carbon :=
  assert (check weight kg) ;;;
  emission_factor <-
    (if negb (dict_contains connector_type (emission_factors self)) then
       log WARN ;;;
       dict_getitem (emission_factors self) PERIPHERAL
     else
       dict_getitem (emission_factors self) connector_type) ;;
  let carbon_per_connector := (weight * emission_factor)%qty in
  let total_carbon := (carbon_per_connector *z n_connectors)%qty in
  log DEBUG ;;;
  ret (mkCarbon total_carbon CONNECTOR).
End Connector.

(** *** [diode_model.py] *)
Module Diode.
Inductive DiodeType := GLASS_SMD | LED | TRANSISTOR | GENERIC.

Global Instance DiodeType_eq_dec : EqDecision DiodeType.
Proof. solve_decision. Defined.

(** [DiodeType(value)] *)
Definition of_value (k : ykey) : option DiodeType :=
  match k with
  | KStr s =>
      if bool_decide (s = "glass_smd") then Some GLASS_SMD
      else if bool_decide (s = "led") then Some LED
      else if bool_decide (s = "transistor") then Some TRANSISTOR
      else if bool_decide (s = "generic") then Some GENERIC
      else None
  | KInt _ => None
  end.

Record DiodeModel := mk { emission_factors : dict DiodeType Quantity }.

Definition __init__ (model_data : document) : M DiodeModel :=
  emission_factors <- load_factors of_value model_data [] ;;
  emission_factors <-
    (if negb (dict_contains GENERIC emission_factors) then
       if dict_contains GLASS_SMD emission_factors then
         v <- dict_getitem emission_factors GLASS_SMD ;;
         ret (dict_setitem emission_factors GENERIC v)
       else
         log ERROR ;;; exit (-1)
     else ret emission_factors) ;;
  ret (mk emission_factors).

(** [diode_type] defaults to [GENERIC], [n_diodes] to [1]. *)
Definition get_carbon (self : DiodeModel) (weight : Quantity)
    (diode_type : DiodeType) (n_diodes : Z) : M Carbon :=
  assert (check weight kg) ;;;
  emission_factor <-
    (if negb (dict_contains diode_type (emission_factors self)) then
       log WARN ;;;
       dict_getitem (emission_factors self) GENERIC
     else
       dict_getitem (emission_factors self) diode_type) ;;
  let total_carbon := (weight * emission_factor *z n_diodes)%qty in
  log DEBUG ;;;
  ret (mkCarbon total_carbon FABRICATION).
End Diode.

(** *** [other_model.py] *)
Module Other.
Inductive OtherType := PASSIVE_GENERIC | ACTIVE_GENERIC | GENERIC.

Global Instance OtherType_eq_dec : EqDecision OtherType.
Proof. solve_decision. Defined.

(** [OtherType(value)] *)
Definition of_value (k : ykey) : option OtherType :=
  match k with
  | KStr s =>
      if bool_decide (s = "passive_generic") then Some PASSIVE_GENERIC
      else if bool_decide (s = "active_generic") then Some ACTIVE_GENERIC
      else if bool_decide (s = "generic") then Some GENERIC
      else None
  | KInt _ => None
  end.

Record OtherModel := mk { emission_factors : dict OtherType Quantity }.

Definition __init__ (model_data : document) : M OtherModel :=
  emission_factors <- load_factors of_value model_data [] ;;
  (if negb (dict_contains GENERIC emission_factors) then
     log ERROR ;;; exit (-1)
   else ret tt) ;;;
  ret (mk emission_factors).

(** [component_type] defaults to [GENERIC], [n_components] to [1]. *)
Definition get_carbon (self : OtherModel) (weight : Quantity)
    (component_type : OtherType) (n_components : Z) : M Carbon :=
  assert (check weight kg) ;;;
  emission_factor <-
    (if negb (dict_contains component_type (emission_factors self)) then
       log WARN ;;;
       dict_getitem (emission_factors self) GENERIC
     else
       dict_getitem (emission_factors self) component_type) ;;
  let total_carbon := (weight * emission_factor *z n_components)%qty in
  log DEBUG ;;;
  ret (mkCarbon total_carbon OTHER).
End Other.

(** ** Package-count model: [resistor_model.py] *)
Module Resistor.
Inductive ResistorType := PKG_0201 | PKG_0402 | PKG_0603 | PKG_0805 | GENERIC.

Global Instance ResistorType_eq_dec : EqDecision ResistorType.
Proof. solve_decision. Defined.

(** [ResistorType(value)] *)
Definition of_value (k : ykey) : option ResistorType :=
  match k with
  | KStr s =>
      if bool_decide (s = "0201") then Some PKG_0201
      else if bool_decide (s = "0402") then Some PKG_0402
      else if bool_decide (s = "0603") then Some PKG_0603
      else if bool_decide (s = "0805") then Some PKG_0805
      else if bool_decide (s = "generic") then Some GENERIC
      else None
  | KInt _ => None
  end.

Record ResistorModel := mk { emission_factors : dict ResistorType Quantity }.

Definition __init__ (model_data : document) : M ResistorModel :=
  emission_factors <- load_factors of_value model_data [] ;;
  (if dict_is_empty emission_factors then
     log ERROR ;;; exit (-1)
   else ret tt) ;;;
  emission_factors <-
    (if dict_contains PKG_0805 emission_factors
        && negb (dict_contains GENERIC emission_factors) then
       v <- dict_getitem emission_factors PKG_0805 ;;
       ret (dict_setitem emission_factors GENERIC v)
     else ret emission_factors) ;;
  ret (mk emission_factors).

Definition get_carbon (self : ResistorModel) (n_resistors : Z)
    (resistor_type : ResistorType) : M Carbon :=
  emission_factor <-
    (if negb (dict_contains resistor_type (emission_factors self)) then
       log WARN ;;;
       (* the default argument of [.get] is evaluated before the call *)
       first_value <- getitem0 (dict_values (emission_factors self)) ;;
       ret (dict_get_default (emission_factors self) PKG_0805 first_value)
     else
       dict_getitem (emission_factors self) resistor_type) ;;
  let total_carbon := (emission_factor *z n_resistors)%qty in
  log DEBUG ;;;
  ret (mkCarbon total_carbon FABRICATION).

(** A call that may leave out the keyword arguments:
    [n_resistors: int = 1], [resistor_type = ResistorType.PKG_0805]. *)
Definition call_get_carbon (self : ResistorModel) (n_resistors : option Z)
    (resistor_type : option ResistorType) : M Carbon :=
  get_carbon self (default 1%Z n_resistors) (default PKG_0805 resistor_type).
End Resistor.

(** ** Dual-mode models *)

(** Modelled from the spec: the manufacturing locations
    ([EnergyLocation] of [act/core/common.py], not part of the sources)
    that key the carbon-intensity table; [JAPAN] is the default location
    of the capacitor model, the other members are kept by name. *)
Inductive EnergyLocation := JAPAN | LOCATION (name : string).

Global Instance EnergyLocation_eq_dec : EqDecision EnergyLocation.
Proof. solve_decision. Defined.

(** *** [capacitor_model.py] *)
Module Capacitor.
Inductive CapacitorType := MLCC | TEC | GENERIC | PKG_0201 | PKG_0402 | PKG_0603 | PKG_0805.

Global Instance CapacitorType_eq_dec : EqDecision CapacitorType.
Proof. solve_decision. Defined.

(** [CapacitorType(value)] *)
Definition of_value (k : ykey) : option CapacitorType :=
  match k with
  | KStr s =>
      if bool_decide (s = "mlcc") then Some MLCC
      else if bool_decide (s = "tec") then Some TEC
      else if bool_decide (s = "generic") then Some GENERIC
      else if bool_decide (s = "0201") then Some PKG_0201
      else if bool_decide (s = "0402") then Some PKG_0402
      else if bool_decide (s = "0603") then Some PKG_0603
      else if bool_decide (s = "0805") then Some PKG_0805
      else None
  | KInt _ => None
  end.

Definition DEFAULT_CAPACITOR_WEIGHT : Quantity := qscale (Q2Qc (3 # 100)) g.
Definition DEFAULT_CARBON_PER_CAPACITOR : Quantity := qscale (Qc_of_Z 300) g.

Record CapacitorModel := mk {
  capacitor_model : dict CapacitorType Quantity;
  package_model : dict CapacitorType Quantity;
  ci_model : dict EnergyLocation Quantity
}.

(** The loop of the constructor; an unknown key is passed over. *)
Fixpoint load (items : document)
    (capacitor_model package_model : dict CapacitorType Quantity)
    : dict CapacitorType Quantity * dict CapacitorType Quantity :=
  match items with
  | [] => (capacitor_model, package_model)
  | (key, value) :: rest =>
      match of_value key with
      | Some cap_type =>
          if bool_decide (cap_type ∈ [MLCC; TEC; GENERIC]) then
            load rest (dict_setitem capacitor_model cap_type value) package_model
          else
            load rest capacitor_model (dict_setitem package_model cap_type value)
      | None => load rest capacitor_model package_model
      end
  end.

(** [loaded_ci_model] is what [load_ci_model()] returns. *)
Definition __init__ (model_data : document)
    (loaded_ci_model : dict EnergyLocation Quantity) : M CapacitorModel :=
  let '(capacitor_model, package_model) := load model_data [] [] in
  ret (mk capacitor_model package_model loaded_ci_model).

(** [ci] defaults to [JAPAN], [ctype] to [GENERIC], [weight] to
    [DEFAULT_CAPACITOR_WEIGHT], [n_caps] to [1]. *)
Definition get_carbon (self : CapacitorModel) (ci : EnergyLocation)
    (ctype : CapacitorType) (weight : Quantity) (n_caps : Z) : M Carbon :=
  if dict_contains ctype (package_model self) then
    emission_per_cap <- dict_getitem (package_model self) ctype ;;
    let total_carbon := (emission_per_cap *z n_caps)%qty in
    ret (mkCarbon total_carbon PASSIVES)
  else if dict_contains ctype (capacitor_model self) then
    energy_per_kg <- dict_getitem (capacitor_model self) ctype ;;
    carbon_intensity <- dict_getitem (ci_model self) ci ;;
    let total_carbon := (energy_per_kg * weight *z n_caps * carbon_intensity)%qty in
    ret (mkCarbon total_carbon PASSIVES)
  else
    ret (mkCarbon (DEFAULT_CARBON_PER_CAPACITOR *z n_caps)%qty PASSIVES).
End Capacitor.

(** *** [inductor_model.py] *)
Module Inductor.
Inductive InductorType :=
  WEIGHT_BASED | PKG_0201 | PKG_0402 | PKG_0603 | PKG_0805 | GENERIC.

Global Instance InductorType_eq_dec : EqDecision InductorType.
Proof. solve_decision. Defined.

(** [InductorType(value)] *)
Definition of_value (k : ykey) : option InductorType :=
  match k with
  | KStr s =>
      if bool_decide (s = "weight_based") then Some WEIGHT_BASED
      else if bool_decide (s = "0201") then Some PKG_0201
      else if bool_decide (s = "0402") then Some PKG_0402
      else if bool_decide (s = "0603") then Some PKG_0603
      else if bool_decide (s = "0805") then Some PKG_0805
      else if bool_decide (s = "generic") then Some GENERIC
      else None
  | KInt _ => None
  end.

Record InductorModel := mk {
  weight_based_factor : option Quantity;
  package_emission_factors : dict InductorType Quantity
}.

(** The loop of the constructor. *)
Fixpoint load (items : document) (self : InductorModel) : M InductorModel :=
  match items with
  | [] => ret self
  | (key, value) :: rest =>
      self' <-
        (if bool_decide (key = KStr "weight_based") then
           ret (mk (Some value) (package_emission_factors self))
         else
           match of_value key with
           | Some inductor_type =>
               ret (mk (weight_based_factor self)
                       (dict_setitem (package_emission_factors self) inductor_type value))
           | None => log WARN ;;; ret self
           end) ;;
      load rest self'
  end.

Definition __init__ (model_data : document) : M InductorModel :=
  self <- load model_data (mk None []) ;;
  if dict_contains PKG_0805 (package_emission_factors self) then
    v <- dict_getitem (package_emission_factors self) PKG_0805 ;;
    ret (mk (weight_based_factor self)
            (dict_setitem (package_emission_factors self) GENERIC v))
  else ret self.

(** [units("0 kg")] *)
Definition zero_kg : Quantity := kilograms (Qc_of_Z 0).

(** [n_inductors] defaults to [1], [inductor_type] to [GENERIC],
    [weight] to [None]. *)
Definition get_carbon (self : InductorModel) (n_inductors : Z)
    (inductor_type : InductorType) (weight : option Quantity) : M Carbon :=
  let is_package_type :=
    bool_decide (inductor_type ∈ [PKG_0201; PKG_0402; PKG_0603; PKG_0805; GENERIC]) in
  if is_package_type && bool_decide (weight = None) then
    emission_factor <-
      (if negb (dict_contains inductor_type (package_emission_factors self)) then
         log WARN ;;;
         (* the default argument of [.get] is evaluated before the call *)
         first_value <- getitem0 (dict_values (package_emission_factors self)) ;;
         ret (dict_get_default (package_emission_factors self) PKG_0805 first_value)
       else
         dict_getitem (package_emission_factors self) inductor_type) ;;
    let total_carbon := (emission_factor *z n_inductors)%qty in
    log DEBUG ;;;
    ret (mkCarbon total_carbon INDUCTOR)
  else
    match weight with
    | None =>
        log WARN ;;;
        ret (mkCarbon zero_kg INDUCTOR)
    | Some weight =>
        assert (check weight kg) ;;;
        match weight_based_factor self with
        | None =>
            log ERROR ;;;
            ret (mkCarbon zero_kg INDUCTOR)
        | Some weight_based_factor =>
            let total_carbon := (weight * weight_based_factor *z n_inductors)%qty in
            log DEBUG ;;;
            ret (mkCarbon total_carbon INDUCTOR)
        end
    end.
End Inductor.

(** ** Area/layer model: [pcb_model.py] *)
Module PCB.
(** A value of the PCB document: a factor expression, or the nested
    mapping under [typical_thickness]. *)
Inductive yvalue := VQty (q : Quantity) | VMap (m : dict ykey Quantity).

Definition INTERPOLATED_AVERAGE_KEY : ykey := KStr "cpla".

(** [units(v)]; a mapping is not a factor expression. *)
Definition units (v : yvalue) : M Quantity :=
  match v with VQty q => ret q | VMap _ => raise TypeError end.

(** [v.items()]; a scalar has no items. *)
Definition items (v : yvalue) : M (dict ykey Quantity) :=
  match v with VMap m => ret m | VQty _ => raise AttributeError end.

Record PCBModel := mk {
  model : dict ykey Quantity;
  typical_thickness : dict ykey Quantity;
  carbon_coefficient : option Quantity;
  interpolated_cpla : option Quantity
}.

(** The loop of the constructor.  [interpolated_cpla] starts out
    unassigned, written [None] here: the constructor assigns it before
    it returns, in the loop or in the check that follows it. *)
Fixpoint load (items_ : dict ykey yvalue) (self : PCBModel) : M PCBModel :=
  match items_ with
  | [] => ret self
  | (k, v) :: rest =>
      self' <-
        (if bool_decide (k = INTERPOLATED_AVERAGE_KEY) then
           q <- units v ;;
           ret (mk (model self) (typical_thickness self) (carbon_coefficient self) (Some q))
         else if bool_decide (k = KStr "typical_thickness") then
           m <- items v ;;
           ret (mk (model self) m (carbon_coefficient self) (interpolated_cpla self))
         else if bool_decide (k = KStr "carbon_coefficient") then
           q <- units v ;;
           ret (mk (model self) (typical_thickness self) (Some q) (interpolated_cpla self))
         else
           q <- units v ;;
           ret (mk (dict_setitem (model self) k q) (typical_thickness self)
                   (carbon_coefficient self) (interpolated_cpla self))) ;;
      load rest self'
  end.

Definition __init__ (model_data : dict ykey yvalue) : M PCBModel :=
  self <- load model_data (mk [] [] None None) ;;
  if negb (dict_contains INTERPOLATED_AVERAGE_KEY (model self))
     && negb (dict_contains INTERPOLATED_AVERAGE_KEY model_data) then
    log WARN ;;;
    ret (mk (model self) (typical_thickness self) (carbon_coefficient self) None)
  else ret self.

(** [thickness] defaults to [None]. *)
Definition get_carbon (self : PCBModel) (area : Quantity) (layers : Z)
    (thickness : option Quantity) : M Carbon :=
  assert (check area mm2) ;;;
  match thickness, carbon_coefficient self with
  | Some thickness, Some carbon_coefficient =>
      let c := (area *z layers * thickness * carbon_coefficient)%qty in
      log DEBUG ;;;
      ret (mkCarbon c FABRICATION)
  | _, _ =>
      cpa <-
        (if dict_contains (KInt layers) (model self) then
           dict_getitem (model self) (KInt layers)
         else
           match interpolated_cpla self with
           | Some interpolated_cpla => ret (interpolated_cpla *z layers)%qty
           | None => log CRITICAL ;;; exit (-1)
           end) ;;
      let c := (cpa * area)%qty in
      log DEBUG ;;;
      ret (mkCarbon c FABRICATION)
  end.
End PCB.

Local Close Scope string_scope.

(** ** The vocabulary of the specification *)

(** The resolution contract of the specification, section 4.1: "if
    [requested_type] has an explicit entry, return it; else [...] return
    the [GENERIC] entry".  The models inline this in [get_carbon]; the
    theorems of Part II compare what they compute with it. *)
Definition resolve {T} `{EqDecision T} (table : dict T Quantity) (generic : T)
    (requested_type : T) : option Quantity :=
  match dict_get table requested_type with
  | Some f => Some f
  | None => dict_get table generic
  end.

(** A document names a type when one of its keys is the value of that
    member of the enumeration. *)
Definition names {T} (of_value : ykey -> option T) (doc : document) (t : T) : Prop :=
  exists k v, (k, v) ∈ doc /\ of_value k = Some t.

(** A quantity of value zero. *)
Definition is_zero (q : Quantity) : Prop := magnitude q = 0%Qc.

(** What the specification promises of a call on a mass-based model,
    section 4.2: the call returns [resolve(t) * w * n] under the tag of the
    category, and for [n = 0] that is a zero of the dimension of a factor
    times a mass. *)
Definition mass_based_result {T} `{EqDecision T} (table : dict T Quantity) (generic : T)
    (tag : SourceType) (w : Quantity) (t : T) (n : Z) (call : M Carbon) : Prop :=
  exists f,
    resolve table generic t = Some f /\
    returns call (mkCarbon (f * w *z n) tag) /\
    (n = 0%Z ->
     returns call (mkCarbon (mkQuantity 0%Qc (dim_mul (dimensionality f) kg)) tag)).


(** ** Sample documents and models

    Small configuration documents, as [yaml.load] would return them, and
    the models the constructors build from them; the examples of Part II
    run the models on these. *)

(** [generic: "5 kg/kg"] *)
Definition generic_5 : document :=
  [(KStr "generic"%string, mkQuantity (Qc_of_Z 5) dimensionless)].

(** [generic: "5 kg"], a resistor document without [0805]. *)
Definition resistor_generic_only : document :=
  [(KStr "generic"%string, kilograms (Qc_of_Z 5))].

(** ["0402": "2 kg"], a package-only document. *)
Definition only_0402 : document :=
  [(KStr "0402"%string, kilograms (Qc_of_Z 2))].

(** [weight_based: "7 kg/kg"], an inductor document for the weight-based
    mode alone. *)
Definition only_weight_based : document :=
  [(KStr "weight_based"%string, mkQuantity (Qc_of_Z 7) dimensionless)].

(** [generic: "5 kg"] before ["0805": "9 kg"]: both entries, with
    different factors. *)
Definition resistor_generic_and_0805 : document :=
  [(KStr "generic"%string, kilograms (Qc_of_Z 5));
   (KStr "0805"%string, kilograms (Qc_of_Z 9))].

(** [mlcc: "2 MJ/kg"], a capacitor document with one energy-based entry,
    and a carbon-intensity table with the entry of [JAPAN]. *)
Definition capacitor_mlcc_doc : document :=
  [(KStr "mlcc"%string, mkQuantity (Qc_of_Z 2) (mkDim 0 2 (-2)))].
Definition ci_japan : dict EnergyLocation Quantity :=
  [(JAPAN, mkQuantity (Qc_of_Z 3) (mkDim 0 (-2) 2))].

(** A length of five, [5 mm] up to the choice of base unit. *)
Definition five_mm : Quantity := mkQuantity (Qc_of_Z 5) mm.

(** The capacitor model the constructor builds from them. *)
Definition capacitor_mlcc : Capacitor.CapacitorModel :=
  Capacitor.mk [(Capacitor.MLCC, mkQuantity (Qc_of_Z 2) (mkDim 0 2 (-2)))] [] ci_japan.

(** A coefficient per area, [kg/mm2]. *)
Definition per_area (m : Qc) : Quantity := mkQuantity m (mkDim 1 (-2) 0).

(** [{4: "0.05 kg/mm2", cpla: "0.02 kg/mm2"}]: one tabulated layer count
    and an interpolated average. *)
Definition pcb_with_average : dict ykey PCB.yvalue :=
  [(KInt 4, PCB.VQty (per_area (Q2Qc (5 # 100))));
   (KStr "cpla"%string, PCB.VQty (per_area (Q2Qc (2 # 100))))].

(** [{4: "0.05 kg/mm2"}]: no interpolated average. *)
Definition pcb_without_average : dict ykey PCB.yvalue :=
  [(KInt 4, PCB.VQty (per_area (Q2Qc (5 # 100))))].

(** An area of [100 mm2]. *)
Definition area_100 : Quantity := mkQuantity (Qc_of_Z 100) mm2.

(** ** What a document says

    The constructors are compared with these readings of the document. *)

(** The value of the last entry whose key satisfies [p]: what a loop that
    assigns entry after entry leaves behind.  The keys of a Python [dict]
    are distinct, so there it is the value of the one entry with such a
    key. *)
Fixpoint last_value {K V} (p : K -> bool) (items : list (K * V)) : option V :=
  match items with
  | [] => None
  | (k, v) :: rest =>
      match last_value p rest with
      | Some v' => Some v'
      | None => if p k then Some v else None
      end
  end.

(** The factor a document gives for the member [t] of an enumeration: the
    value under the key that is the value of [t]. *)
Definition doc_lookup {T} `{EqDecision T} (of_value : ykey -> option T)
    (doc : document) (t : T) : option Quantity :=
  last_value (fun k => bool_decide (of_value k = Some t)) doc.

(** The factor of the first entry of a document whose key is the value of
    some member of the enumeration. *)
Fixpoint first_known {T} (of_value : ykey -> option T) (doc : document) : option Quantity :=
  match doc with
  | [] => None
  | (k, v) :: rest =>
      match of_value k with
      | Some _ => Some v
      | None => first_known of_value rest
      end
  end.

(** The number of entries whose key is the value of no member. *)
Fixpoint unknown_keys {T} (of_value : ykey -> option T) (doc : document) : nat :=
  match doc with
  | [] => 0%nat
  | (k, _) :: rest =>
      match of_value k with
      | Some _ => unknown_keys of_value rest
      | None => S (unknown_keys of_value rest)
      end
  end.

(** The keys the inductor constructor files in its package table: every
    key but [weight_based] that is the value of a member. *)
Definition inductor_package_key (k : ykey) : option Inductor.InductorType :=
  if bool_decide (k = KStr "weight_based"%string) then None else Inductor.of_value k.

(** The keys of a PCB document that the constructor handles apart from
    the layer table. *)
Definition pcb_reserved (k : ykey) : bool :=
  bool_decide (k = PCB.INTERPOLATED_AVERAGE_KEY)
  || bool_decide (k = KStr "typical_thickness"%string)
  || bool_decide (k = KStr "carbon_coefficient"%string).

(** A PCB document of the documented shape: a mapping under
    [typical_thickness], factor expressions everywhere else. *)
Definition pcb_well_shaped (doc : dict ykey PCB.yvalue) : Prop :=
  forall k v, (k, v) ∈ doc ->
    if bool_decide (k = KStr "typical_thickness"%string)
    then exists m, v = PCB.VMap m
    else exists q, v = PCB.VQty q.

(** The factor expression of a value of a PCB document. *)
Definition as_quantity (v : PCB.yvalue) : option Quantity :=
  match v with PCB.VQty q => Some q | PCB.VMap _ => None end.

(** [glass_smd: "4 kg/kg"], a diode document without [generic]. *)
Definition only_glass_smd : document :=
  [(KStr "glass_smd"%string, mkQuantity (Qc_of_Z 4) dimensionless)].

(** [generic: "5 kg"] before ["0805": "9 kg"], as an inductor document. *)
Definition inductor_generic_and_0805 : document :=
  [(KStr "generic"%string, kilograms (Qc_of_Z 5));
   (KStr "0805"%string, kilograms (Qc_of_Z 9))].

(** [generic: "5 kg/kg"] before [transistor_bjt: "8 kg/kg"]. *)
Definition active_two : document :=
  [(KStr "generic"%string, mkQuantity (Qc_of_Z 5) dimensionless);
   (KStr "transistor_bjt"%string, mkQuantity (Qc_of_Z 8) dimensionless)].

(** ["0603": "3 kg"] before ["0402": "2 kg"], a resistor document without
    ["0805"]. *)
Definition resistor_two : document :=
  [(KStr "0603"%string, kilograms (Qc_of_Z 3));
   (KStr "0402"%string, kilograms (Qc_of_Z 2))].

(** [{4: "0.05 kg/mm2", carbon_coefficient: "0.02 kg/mm2"}]: a
    coefficient for the thickness path, no interpolated average. *)
Definition pcb_with_coefficient : dict ykey PCB.yvalue :=
  [(KInt 4, PCB.VQty (per_area (Q2Qc (5 # 100))));
   (KStr "carbon_coefficient"%string, PCB.VQty (per_area (Q2Qc (2 # 100))))].

(** ** Binary64 magnitudes

    A magnitude written with a decimal point, as in [units("0.1 kg")] or
    ["0.0004 kg"] in a document, is a Python [float]: an IEEE 754 binary64
    number, whose products and sums are rounded to the nearest
    representable value.  This section reads the arithmetic of the
    quantity system at binary64 magnitudes and runs two of the models on
    it, one mass-based ([Active]) and the package-count model
    ([Resistor]); their control flow is that of the modules above, line
    for line.  An [int] magnitude that meets a [float] in a product is
    converted to the float of the same value, so a factor such as
    ["1 kg/kg"] is kept as [1.0].  All quantities here are written in the
    same unit, so no unit conversion takes place. *)

(** [float(n)] for a Python [int] [n], as the interpreter converts an
    [int] operand of a product with a [float]; every step is exact for
    [|n| <= 2^53]. *)
Fixpoint float_of_pos (p : positive) : PrimFloat.float :=
  match p with
  | xH => PrimFloat.one
  | xO p' => PrimFloat.mul PrimFloat.two (float_of_pos p')
  | xI p' => PrimFloat.add (PrimFloat.mul PrimFloat.two (float_of_pos p')) PrimFloat.one
  end.

Definition float_of_int (n : Z) : PrimFloat.float :=
  match n with
  | Z0 => PrimFloat.zero
  | Zpos p => float_of_pos p
  | Zneg p => PrimFloat.opp (float_of_pos p)
  end.

(** Modelled from the spec: a "dimensioned numeric value" of the
    quantity/unit system whose magnitude is a Python [float]. *)
Record Quantity64 := mkQuantity64 { magnitude64 : PrimFloat.float; dimensionality64 : Dim }.

(** Modelled from the spec: the "[check(dimension)] predicate",
    [q.check(d)]. *)
Definition check64 (q : Quantity64) (d : Dim) : bool :=
  bool_decide (dimensionality64 q = d).

(** Modelled from the spec: the "standard arithmetic" [a * b], which
    "propagates units", on [float] magnitudes. *)
Definition qmul64 (a b : Quantity64) : Quantity64 :=
  mkQuantity64 (PrimFloat.mul (magnitude64 a) (magnitude64 b))
    (dim_mul (dimensionality64 a) (dimensionality64 b)).

(** Modelled from the spec: [q * n] for a Python [int] [n], on a [float]
    magnitude. *)
Definition qmul_int64 (q : Quantity64) (n : Z) : Quantity64 :=
  mkQuantity64 (PrimFloat.mul (magnitude64 q) (float_of_int n)) (dimensionality64 q).

(** Modelled from the spec: the "standard arithmetic" [a + b], which
    "fails if dimensions are incompatible", on [float] magnitudes. *)
Definition qadd64 (a b : Quantity64) : option Quantity64 :=
  if decide (dimensionality64 a = dimensionality64 b)
  then Some (mkQuantity64 (PrimFloat.add (magnitude64 a) (magnitude64 b)) (dimensionality64 a))
  else None.

(** The sum [q1 + q2 + ... + qk] of a non-empty list, from the left, as a
    loop or [sum] accumulates it. *)
Definition qsum64 (qs : list Quantity64) : option Quantity64 :=
  match qs with
  | [] => None
  | q :: rest => foldl (fun acc x => acc ≫= fun a => qadd64 a x) (Some q) rest
  end.

(** Modelled from the spec: [a == b] on two quantities written in the
    same unit: the same dimension and magnitudes that compare equal as
    floats. *)
Definition qeqb64 (a b : Quantity64) : bool :=
  bool_decide (dimensionality64 a = dimensionality64 b)
  && PrimFloat.eqb (magnitude64 a) (magnitude64 b).

(** Modelled from the spec: the carbon value type, which "wraps a computed
    quantity together with a source-category tag". *)
Record Carbon64 := mkCarbon64 { quantity64 : Quantity64; source64 : SourceType }.

Definition document64 := dict ykey Quantity64.

(** The loop of the constructors over the document, as [load_factors]. *)
Fixpoint load_factors64 {T} `{EqDecision T} (of_value : ykey -> option T)
    (items : document64) (emission_factors : dict T Quantity64) : M (dict T Quantity64) :=
  match items with
  | [] => ret emission_factors
  | (key, factor) :: rest =>
      emission_factors' <-
        match of_value key with
        | Some t => ret (dict_setitem emission_factors t factor)
        | None => log WARN ;;; ret emission_factors
        end ;;
      load_factors64 of_value rest emission_factors'
  end.

(** *** [active_model.py] at binary64 magnitudes *)
Module Active64.
Record ActiveModel := mk { emission_factors : dict Active.ActiveType Quantity64 }.

Definition __init__ (model_data : document64) : M ActiveModel :=
  emission_factors <- load_factors64 Active.of_value model_data [] ;;
  emission_factors <-
    (if negb (dict_contains Active.GENERIC emission_factors) then
       if dict_contains Active.ACTIVE_GENERIC emission_factors then
         v <- dict_getitem emission_factors Active.ACTIVE_GENERIC ;;
         ret (dict_setitem emission_factors Active.GENERIC v)
       else
         log ERROR ;;; exit (-1)
     else ret emission_factors) ;;
  ret (mk emission_factors).

Definition get_carbon (self : ActiveModel) (weight : Quantity64)
    (active_type : Active.ActiveType) (n_components : Z) : M Carbon64 :=
  assert (check64 weight kg) ;;;
  emission_factor <-
    (if negb (dict_contains active_type (emission_factors self)) then
       log WARN ;;;
       dict_getitem (emission_factors self) Active.GENERIC
     else
       dict_getitem (emission_factors self) active_type) ;;
  let total_carbon := qmul_int64 (qmul64 weight emission_factor) n_components in
  log DEBUG ;;;
  ret (mkCarbon64 total_carbon ACTIVE).
End Active64.

(** *** [resistor_model.py] at binary64 magnitudes *)
Module Resistor64.
Record ResistorModel := mk { emission_factors : dict Resistor.ResistorType Quantity64 }.

Definition __init__ (model_data : document64) : M ResistorModel :=
  emission_factors <- load_factors64 Resistor.of_value model_data [] ;;
  (if dict_is_empty emission_factors then
     log ERROR ;;; exit (-1)
   else ret tt) ;;;
  emission_factors <-
    (if dict_contains Resistor.PKG_0805 emission_factors
        && negb (dict_contains Resistor.GENERIC emission_factors) then
       v <- dict_getitem emission_factors Resistor.PKG_0805 ;;
       ret (dict_setitem emission_factors Resistor.GENERIC v)
     else ret emission_factors) ;;
  ret (mk emission_factors).

Definition get_carbon (self : ResistorModel) (n_resistors : Z)
    (resistor_type : Resistor.ResistorType) : M Carbon64 :=
  emission_factor <-
    (if negb (dict_contains resistor_type (emission_factors self)) then
       log WARN ;;;
       first_value <- getitem0 (dict_values (emission_factors self)) ;;
       ret (dict_get_default (emission_factors self) Resistor.PKG_0805 first_value)
     else
       dict_getitem (emission_factors self) resistor_type) ;;
  let total_carbon := qmul_int64 emission_factor n_resistors in
  log DEBUG ;;;
  ret (mkCarbon64 total_carbon FABRICATION).
End Resistor64.

(** Round trip, section 8, at binary64 magnitudes: the quantities of [n]
    calls with quantity one, summed from the left, compare equal ([==]) to
    the quantity of one call with quantity [n]. *)
Definition round_trip64 (call : Z -> M Carbon64) (n : Z) : Prop :=
  exists c1 cn,
    returns (call 1%Z) c1 /\
    returns (call n) cn /\
    source64 c1 = source64 cn /\
    exists total,
      qsum64 (replicate (Z.to_nat n) (quantity64 c1)) = Some total /\
      qeqb64 total (quantity64 cn) = true.

#[local] Set Warnings "-inexact-float".

(** A mass of [m] kilograms, [units("<m> kg")], for a float [m]. *)
Definition kilograms64 (m : PrimFloat.float) : Quantity64 := mkQuantity64 m kg.


(** ["0805": "0.0004 kg"], a resistor document. *)
Definition resistor_0805_64 : document64 :=
  [(KStr "0805"%string, kilograms64 0.0004%float)].

(** The models the constructors build from them; the resistor constructor
    adds the [GENERIC] alias of ["0805"]. *)
Definition active_one64 : Active64.ActiveModel :=
  Active64.mk [(Active.GENERIC, mkQuantity64 1%float dimensionless)].
Definition resistor_one64 : Resistor64.ResistorModel :=
  Resistor64.mk [(Resistor.PKG_0805, kilograms64 0.0004%float);
                 (Resistor.GENERIC, kilograms64 0.0004%float)].

(* ================================================================== *)
(** * Part II.  Lemmas and theorems                                    *)
(* ================================================================== *)

(** ** The runtime *)

Lemma outcome_bind {A B} (m : M A) (f : A -> M B) :
  outcome_of (bind m f) =
  match outcome_of m with
  | Return a => outcome_of (f a)
  | Raise e => Raise e
  | SystemExit c => SystemExit c
  end.
Proof.
  destruct m as [l [a|e|c]]; simpl; try reflexivity.
  destruct (f a); reflexivity.
Qed.

Lemma bind_ret {A B} (a : A) (f : A -> M B) : bind (ret a) f = f a.
Proof. unfold bind, ret. by destruct (f a). Qed.

Lemma outcome_ret {A} (a : A) : outcome_of (ret a) = Return a.
Proof. reflexivity. Qed.

Lemma outcome_log lv : outcome_of (log lv) = Return tt.
Proof. reflexivity. Qed.

Lemma outcome_assert_true : outcome_of (assert true) = Return tt.
Proof. reflexivity. Qed.

Lemma outcome_assert_false : outcome_of (assert false) = Raise AssertionError.
Proof. reflexivity. Qed.

(** Evaluate the outcome of a sequence of statements as far as it is known. *)
Ltac run :=
  repeat first
    [ rewrite outcome_bind | rewrite outcome_ret | rewrite outcome_log
    | rewrite outcome_assert_true | rewrite outcome_assert_false ];
  simpl.

(** ** Dictionaries *)

Section dict_facts.
Context {K V : Type} `{EqDecision K}.
Implicit Types (d : dict K V) (k : K) (v : V).

Lemma dict_contains_true d k : dict_contains k d = true <-> is_Some (dict_get d k).
Proof.
  unfold dict_contains. destruct (dict_get d k); split; intros Hx;
    try reflexivity; try discriminate; eauto.
  destruct Hx; discriminate.
Qed.

Lemma dict_contains_false d k : dict_contains k d = false <-> dict_get d k = None.
Proof.
  unfold dict_contains. destruct (dict_get d k); split; congruence.
Qed.

Lemma dict_get_setitem_eq d k v : dict_get (dict_setitem d k v) k = Some v.
Proof.
  induction d as [|[k' v'] d IH]; simpl.
  - rewrite decide_True; done.
  - destruct (decide (k = k')) as [->|Hne]; simpl.
    + rewrite decide_True; done.
    + rewrite decide_False; done.
Qed.

Lemma dict_get_setitem_ne d k k' v :
  k <> k' -> dict_get (dict_setitem d k v) k' = dict_get d k'.
Proof.
  intros Hne. induction d as [|[k0 v0] d IH]; simpl.
  - rewrite decide_False; [done | congruence].
  - destruct (decide (k = k0)) as [->|Hk]; simpl.
    + rewrite !decide_False; congruence.
    + destruct (decide (k' = k0)); done.
Qed.

Lemma dict_get_setitem d k k' v :
  dict_get (dict_setitem d k v) k' = if decide (k = k') then Some v else dict_get d k'.
Proof.
  destruct (decide (k = k')) as [->|Hne].
  - apply dict_get_setitem_eq.
  - by apply dict_get_setitem_ne.
Qed.

Lemma dict_setitem_not_empty d k v : dict_is_empty (dict_setitem d k v) = false.
Proof. destruct d as [|[k' v'] d]; simpl; [done | by destruct (decide (k = k'))]. Qed.

Lemma dict_getitem_Some d k v : dict_get d k = Some v -> dict_getitem d k = ret v.
Proof. unfold dict_getitem. by intros ->. Qed.

Lemma dict_getitem_None d k : dict_get d k = None -> dict_getitem d k = raise KeyError.
Proof. unfold dict_getitem. by intros ->. Qed.

Lemma dict_not_empty_values d :
  dict_is_empty d = false -> exists x xs, dict_values d = x :: xs.
Proof. destruct d as [|[k' v'] d]; simpl; [done | eauto]. Qed.

End dict_facts.

(** ** Loading a factor table *)

Section load_factors_facts.
Context {T : Type} `{EqDecision T} (of_value : ykey -> option T).
Implicit Types (items : document) (d : dict T Quantity).

(** The loop never raises and never exits: unknown keys are skipped. *)
Lemma load_factors_total items d : exists d', returns (load_factors of_value items d) d'.
Proof.
  revert d. induction items as [|[k v] items IH]; intros d; simpl.
  - by exists d.
  - unfold returns. rewrite outcome_bind.
    destruct (of_value k) as [t|]; simpl; apply IH.
Qed.

(** A type is in the loaded table exactly when it was there before or
    some key of the document names it. *)
Lemma load_factors_contains items d d' t :
  returns (load_factors of_value items d) d' ->
  is_Some (dict_get d' t) <->
  is_Some (dict_get d t) \/ exists k v, (k, v) ∈ items /\ of_value k = Some t.
Proof.
  revert d. induction items as [|[k v] items IH]; intros d; simpl.
  - unfold returns; simpl. intros [= ->]. split; [by left|].
    intros [?|(k & v & Hin & _)]; [done | by apply elem_of_nil in Hin].
  - unfold returns. rewrite outcome_bind.
    destruct (of_value k) as [t'|] eqn:Hk; simpl; intros Hr; apply IH in Hr; rewrite Hr.
    + rewrite dict_get_setitem. split.
      * intros [Hs|(k0 & v0 & Hin & Hof)].
        -- destruct (decide (t' = t)) as [->|]; [|by left].
           right. exists k, v. split; [left | done].
        -- right. exists k0, v0. split; [by right | done].
      * intros [Hs|(k0 & v0 & Hin & Hof)].
        -- left. destruct (decide (t' = t)); [by exists v | done].
        -- apply elem_of_cons in Hin as [[= -> ->]|Hin].
           ++ left. rewrite Hk in Hof. injection Hof as ->.
              rewrite decide_True; [by exists v | done].
           ++ right. eauto.
    + split.
      * intros [Hs|(k0 & v0 & Hin & Hof)]; [by left|].
        right. exists k0, v0. split; [by right | done].
      * intros [Hs|(k0 & v0 & Hin & Hof)]; [by left|].
        apply elem_of_cons in Hin as [[= -> ->]|Hin]; [congruence|].
        right. eauto.
Qed.

End load_factors_facts.

Lemma load_factors_from_empty {T} `{EqDecision T} (of_value : ykey -> option T)
    (doc : document) (d : dict T Quantity) (t : T) :
  returns (load_factors of_value doc []) d ->
  is_Some (dict_get d t) <-> names of_value doc t.
Proof.
  intros Hr. rewrite (load_factors_contains of_value doc [] d t Hr). simpl.
  split; [|by right]. intros [[x Hx]|Hn]; [discriminate | done].
Qed.

Lemma load_factors_contains_bool {T} `{EqDecision T} (of_value : ykey -> option T)
    (doc : document) (d : dict T Quantity) (t : T) :
  returns (load_factors of_value doc []) d ->
  dict_contains t d = false <-> ~ names of_value doc t.
Proof.
  intros Hr. rewrite <- (load_factors_from_empty of_value doc d t Hr).
  rewrite <- dict_contains_true. destruct (dict_contains t d); split; try done.
Qed.

(** ** Quantities *)

Lemma qmul_comm (a b : Quantity) : (a * b)%qty = (b * a)%qty.
Proof.
  unfold qmul, dim_mul. f_equal; [apply Qcmult_comm|].
  f_equal; apply Z.add_comm.
Qed.

Lemma qmul_int_0 (q : Quantity) : (q *z 0)%qty = mkQuantity 0%Qc (dimensionality q).
Proof. unfold qmul_int. f_equal. rewrite Z2Qc_inj_0. ring. Qed.


Lemma check_true q d : check q d = true <-> dimensionality q = d.
Proof. unfold check. apply bool_decide_eq_true. Qed.




(** ** Mass-based models: construction and calls *)

(** Run a constructor up to the table [Hd] says the loop returns. *)
Ltac init_cases Hd :=
  unfold returns; run; rewrite Hd; simpl.

(** The constructor left a default entry in the table. *)

Lemma Active_init_generic doc self :
  returns (Active.__init__ doc) self ->
  is_Some (dict_get (Active.emission_factors self) Active.GENERIC).
Proof.
  unfold Active.__init__.
  destruct (load_factors_total Active.of_value doc []) as [d Hd].
  init_cases Hd.
  destruct (dict_contains Active.GENERIC d) eqn:Hg; simpl.
  - run. intros [= <-]. simpl. by apply dict_contains_true.
  - destruct (dict_contains Active.ACTIVE_GENERIC d) eqn:Ha; simpl.
    + apply dict_contains_true in Ha as [v Hv].
      run. rewrite (dict_getitem_Some _ _ _ Hv). run.
      intros [= <-]. simpl. rewrite dict_get_setitem_eq. by eexists.
    + run. discriminate.
Qed.

Lemma Diode_init_generic doc self :
  returns (Diode.__init__ doc) self ->
  is_Some (dict_get (Diode.emission_factors self) Diode.GENERIC).
Proof.
  unfold Diode.__init__.
  destruct (load_factors_total Diode.of_value doc []) as [d Hd].
  init_cases Hd.
  destruct (dict_contains Diode.GENERIC d) eqn:Hg; simpl.
  - run. intros [= <-]. simpl. by apply dict_contains_true.
  - destruct (dict_contains Diode.GLASS_SMD d) eqn:Ha; simpl.
    + apply dict_contains_true in Ha as [v Hv].
      run. rewrite (dict_getitem_Some _ _ _ Hv). run.
      intros [= <-]. simpl. rewrite dict_get_setitem_eq. by eexists.
    + run. discriminate.
Qed.

Lemma Other_init_generic doc self :
  returns (Other.__init__ doc) self ->
  is_Some (dict_get (Other.emission_factors self) Other.GENERIC).
Proof.
  unfold Other.__init__.
  destruct (load_factors_total Other.of_value doc []) as [d Hd].
  init_cases Hd.
  destruct (dict_contains Other.GENERIC d) eqn:Hg; simpl.
  - run. intros [= <-]. simpl. by apply dict_contains_true.
  - run. discriminate.
Qed.

Lemma Switch_init_generic doc self :
  returns (Switch.__init__ doc) self ->
  is_Some (dict_get (Switch.emission_factors self) Switch.GENERIC).
Proof.
  unfold Switch.__init__.
  destruct (load_factors_total Switch.of_value doc []) as [d Hd].
  init_cases Hd.
  destruct (dict_contains Switch.GENERIC d) eqn:Hg; simpl.
  - run. intros [= <-]. simpl. by apply dict_contains_true.
  - run. discriminate.
Qed.

Lemma Connector_init_required doc self :
  returns (Connector.__init__ doc) self ->
  is_Some (dict_get (Connector.emission_factors self) Connector.PERIPHERAL) /\
  is_Some (dict_get (Connector.emission_factors self) Connector.PCI).
Proof.
  unfold Connector.__init__.
  destruct (load_factors_total Connector.of_value doc []) as [d Hd].
  init_cases Hd.
  destruct (dict_contains Connector.PERIPHERAL d) eqn:Hp; simpl; run; [|discriminate].
  destruct (dict_contains Connector.PCI d) eqn:Hc; simpl; run; [|discriminate].
  intros [= <-]. simpl. split; by apply dict_contains_true.
Qed.

(** With a default entry in the table and a weight that is a mass, the
    call returns the resolved factor times the weight times the count. *)
Ltac get_carbon_resolved table w Hw g Hg t :=
  unfold returns, resolve; rewrite Hw;
  let f := fresh "f" in
  let Ht := fresh "Ht" in
  destruct (dict_get table t) as [f|] eqn:Ht;
  [ exists f; split; [done|];
    rewrite (proj2 (dict_contains_true _ _)) by (by rewrite Ht); simpl;
    run; rewrite (dict_getitem_Some _ _ _ Ht); run; by rewrite (qmul_comm w f)
  | exists g; split; [done|];
    rewrite (proj2 (dict_contains_false _ _) Ht); simpl;
    run; rewrite (dict_getitem_Some _ _ _ Hg); run; by rewrite (qmul_comm w g) ].

Lemma Active_get_carbon_resolved self w t n :
  is_Some (dict_get (Active.emission_factors self) Active.GENERIC) ->
  check w kg = true ->
  exists f, resolve (Active.emission_factors self) Active.GENERIC t = Some f /\
    returns (Active.get_carbon self w t n) (mkCarbon (f * w *z n) ACTIVE).
Proof.
  intros [g Hg] Hw. unfold Active.get_carbon.
  get_carbon_resolved (Active.emission_factors self) w Hw g Hg t.
Qed.

Lemma Switch_get_carbon_resolved self w t n :
  is_Some (dict_get (Switch.emission_factors self) Switch.GENERIC) ->
  check w kg = true ->
  exists f, resolve (Switch.emission_factors self) Switch.GENERIC t = Some f /\
    returns (Switch.get_carbon self w t n) (mkCarbon (f * w *z n) SWITCH).
Proof.
  intros [g Hg] Hw. unfold Switch.get_carbon.
  get_carbon_resolved (Switch.emission_factors self) w Hw g Hg t.
Qed.

Lemma Connector_get_carbon_resolved self w t n :
  is_Some (dict_get (Connector.emission_factors self) Connector.PERIPHERAL) ->
  check w kg = true ->
  exists f, resolve (Connector.emission_factors self) Connector.PERIPHERAL t = Some f /\
    returns (Connector.get_carbon self w t n) (mkCarbon (f * w *z n) CONNECTOR).
Proof.
  intros [g Hg] Hw. unfold Connector.get_carbon.
  get_carbon_resolved (Connector.emission_factors self) w Hw g Hg t.
Qed.

Lemma Diode_get_carbon_resolved self w t n :
  is_Some (dict_get (Diode.emission_factors self) Diode.GENERIC) ->
  check w kg = true ->
  exists f, resolve (Diode.emission_factors self) Diode.GENERIC t = Some f /\
    returns (Diode.get_carbon self w t n) (mkCarbon (f * w *z n) FABRICATION).
Proof.
  intros [g Hg] Hw. unfold Diode.get_carbon.
  get_carbon_resolved (Diode.emission_factors self) w Hw g Hg t.
Qed.

Lemma Other_get_carbon_resolved self w t n :
  is_Some (dict_get (Other.emission_factors self) Other.GENERIC) ->
  check w kg = true ->
  exists f, resolve (Other.emission_factors self) Other.GENERIC t = Some f /\
    returns (Other.get_carbon self w t n) (mkCarbon (f * w *z n) OTHER).
Proof.
  intros [g Hg] Hw. unfold Other.get_carbon.
  get_carbon_resolved (Other.emission_factors self) w Hw g Hg t.
Qed.

Lemma mass_based_result_intro {T} `{EqDecision T} (table : dict T Quantity) (generic : T)
    (tag : SourceType) (w : Quantity) (t : T) (n : Z) (call : M Carbon) :
  check w kg = true ->
  (exists f, resolve table generic t = Some f /\
     returns call (mkCarbon (f * w *z n) tag)) ->
  mass_based_result table generic tag w t n call.
Proof.
  intros Hw (f & Hf & Hr). exists f. split; [done|]. split; [done|].
  intros ->. rewrite qmul_int_0 in Hr. simpl in Hr.
  apply check_true in Hw. by rewrite Hw in Hr.
Qed.


(** ** Claims on the mass-based models *)

(** C1.  For every mass-based model (Active, Connector, Diode, Other,
    Switch) built by its constructor, every weight [w] that is a mass, every
    type [t] of the model's enumeration and every integer [n >= 0],
    [get_carbon(w, t, n)] returns a carbon value whose quantity is
    [resolve(t) * w * n]; for [n = 0] the call still returns, and the value
    is a zero of the dimension of factor times mass. *)
Theorem C1_mass_based_get_carbon_exact (w : Quantity) (n : Z) :
  check w kg = true -> (0 <= n)%Z ->
  (forall doc self t, returns (Active.__init__ doc) self ->
     mass_based_result (Active.emission_factors self) Active.GENERIC ACTIVE w t n
       (Active.get_carbon self w t n)) /\
  (forall doc self t, returns (Connector.__init__ doc) self ->
     mass_based_result (Connector.emission_factors self) Connector.PERIPHERAL CONNECTOR w t n
       (Connector.get_carbon self w t n)) /\
  (forall doc self t, returns (Diode.__init__ doc) self ->
     mass_based_result (Diode.emission_factors self) Diode.GENERIC FABRICATION w t n
       (Diode.get_carbon self w t n)) /\
  (forall doc self t, returns (Other.__init__ doc) self ->
     mass_based_result (Other.emission_factors self) Other.GENERIC OTHER w t n
       (Other.get_carbon self w t n)) /\
  (forall doc self t, returns (Switch.__init__ doc) self ->
     mass_based_result (Switch.emission_factors self) Switch.GENERIC SWITCH w t n
       (Switch.get_carbon self w t n)).
Proof.
  intros Hw _. repeat split; intros doc self t Hinit;
    apply mass_based_result_intro; try done.
  - apply Active_get_carbon_resolved; [by eapply Active_init_generic | done].
  - apply Connector_get_carbon_resolved; [|done].
    by eapply (proj1 (Connector_init_required _ _ Hinit)).
  - apply Diode_get_carbon_resolved; [by eapply Diode_init_generic | done].
  - apply Other_get_carbon_resolved; [by eapply Other_init_generic | done].
  - apply Switch_get_carbon_resolved; [by eapply Switch_init_generic | done].
Qed.

(** C1 on the Active model built from [generic_5]: a weight of 2 kg, a
    type without an entry, three components. *)
Lemma C1_witness :
  mass_based_result [(Active.GENERIC, mkQuantity (Qc_of_Z 5) dimensionless)]
    Active.GENERIC ACTIVE (kilograms (Qc_of_Z 2)) Active.TRANSISTOR_BJT 3
    (Active.get_carbon (Active.mk [(Active.GENERIC, mkQuantity (Qc_of_Z 5) dimensionless)])
       (kilograms (Qc_of_Z 2)) Active.TRANSISTOR_BJT 3).
Proof.
  assert (Hw : check (kilograms (Qc_of_Z 2)) kg = true) by reflexivity.
  assert (Hn : (0 <= 3)%Z) by lia.
  assert (Hinit : returns (Active.__init__ generic_5)
            (Active.mk [(Active.GENERIC, mkQuantity (Qc_of_Z 5) dimensionless)]))
    by reflexivity.
  exact (proj1 (C1_mass_based_get_carbon_exact _ 3 Hw Hn) generic_5 _ Active.TRANSISTOR_BJT Hinit).
Defined.


(** ** The resistor model *)

Lemma Resistor_init_not_empty doc self :
  returns (Resistor.__init__ doc) self ->
  dict_is_empty (Resistor.emission_factors self) = false.
Proof.
  unfold Resistor.__init__.
  destruct (load_factors_total Resistor.of_value doc []) as [d Hd].
  init_cases Hd.
  destruct (dict_is_empty d) eqn:He; simpl; run; [discriminate|].
  destruct (dict_contains Resistor.PKG_0805 d && negb (dict_contains Resistor.GENERIC d))
    eqn:Hc; simpl; run.
  - apply andb_true_iff in Hc as [Hc _].
    apply dict_contains_true in Hc as [v Hv].
    rewrite (dict_getitem_Some _ _ _ Hv). run.
    intros [= <-]. simpl. apply dict_setitem_not_empty.
  - by intros [= <-].
Qed.

(** A type with an entry: its factor times the count, no warning. *)
Lemma Resistor_get_carbon_present self n t f :
  dict_get (Resistor.emission_factors self) t = Some f ->
  Resistor.get_carbon self n t = ([DEBUG], Return (mkCarbon (f *z n) FABRICATION)).
Proof.
  intros Ht. unfold Resistor.get_carbon.
  rewrite (proj2 (dict_contains_true _ _)) by (by rewrite Ht). simpl.
  by rewrite (dict_getitem_Some _ _ _ Ht).
Qed.

(** A type without an entry, in a table that is not empty: a warning, then
    the [0805] factor, or the first factor of the table when [0805] has no
    entry either. *)
Lemma Resistor_get_carbon_absent self n t x xs :
  dict_get (Resistor.emission_factors self) t = None ->
  dict_values (Resistor.emission_factors self) = x :: xs ->
  Resistor.get_carbon self n t =
    ([WARN; DEBUG],
     Return (mkCarbon
       (dict_get_default (Resistor.emission_factors self) Resistor.PKG_0805 x *z n)
       FABRICATION)).
Proof.
  intros Ht Hv. unfold Resistor.get_carbon.
  rewrite (proj2 (dict_contains_false _ _) Ht). simpl. by rewrite Hv.
Qed.





(** The same on the resistor model built from ["0805": "0.0004 kg"]: seven
    calls with quantity one sum to [0.0028000000000000004 kg], one call
    with quantity seven returns [0.0028 kg]. *)
Example Resistor64_round_trip_fails :
  returns (Resistor64.__init__ resistor_0805_64) resistor_one64 /\
  returns (Resistor64.get_carbon resistor_one64 1 Resistor.PKG_0805)
    (mkCarbon64 (kilograms64 0.0004) FABRICATION) /\
  returns (Resistor64.get_carbon resistor_one64 7 Resistor.PKG_0805)
    (mkCarbon64 (kilograms64 0.0028) FABRICATION) /\
  qsum64 (replicate 7 (kilograms64 0.0004)) = Some (kilograms64 0.0028000000000000004) /\
  ~ round_trip64 (fun k => Resistor64.get_carbon resistor_one64 k Resistor.PKG_0805) 7.
Proof.
  repeat split; try (vm_compute; reflexivity).
  intros (c1 & cn & H1 & Hn & _ & total & Hsum & Heq).
  vm_compute in H1. injection H1 as <-.
  vm_compute in Hn. injection Hn as <-.
  vm_compute in Hsum. injection Hsum as <-.
  vm_compute in Heq. discriminate Heq.
Qed.

(** Rounding does not always show: two or three calls with quantity one
    sum to what one call returns, on the same model and weight. *)
Example Active64_round_trip_of_two_and_three :
  round_trip64 (Active64.get_carbon active_one64 (kilograms64 0.1) Active.GENERIC) 2 /\
  round_trip64 (Active64.get_carbon active_one64 (kilograms64 0.1) Active.GENERIC) 3.
Proof.
  split.
  - exists (mkCarbon64 (kilograms64 0.1) ACTIVE), (mkCarbon64 (kilograms64 0.2) ACTIVE).
    repeat split; try (vm_compute; reflexivity).
    exists (kilograms64 0.2). split; vm_compute; reflexivity.
  - exists (mkCarbon64 (kilograms64 0.1) ACTIVE),
      (mkCarbon64 (kilograms64 0.30000000000000004) ACTIVE).
    repeat split; try (vm_compute; reflexivity).
    exists (kilograms64 0.30000000000000004). split; vm_compute; reflexivity.
Qed.

(** C8, as the code has it.  When [0805] has an entry, a call without a
    type uses that entry (also when [generic] has an entry of its own),
    and a type without an entry falls back to it after a warning.  When
    [0805] has no entry, both use the first entry of the table, in the
    order of the document.  In every case the result is that factor times
    [n], tagged [FABRICATION]. *)
Theorem C8_resistor_default_and_fallback doc self (n : Z) :
  returns (Resistor.__init__ doc) self ->
  (forall f, dict_get (Resistor.emission_factors self) Resistor.PKG_0805 = Some f ->
     Resistor.call_get_carbon self (Some n) None
       = ([DEBUG], Return (mkCarbon (f *z n) FABRICATION)) /\
     forall t, dict_get (Resistor.emission_factors self) t = None ->
       Resistor.get_carbon self n t
         = ([WARN; DEBUG], Return (mkCarbon (f *z n) FABRICATION))) /\
  (dict_get (Resistor.emission_factors self) Resistor.PKG_0805 = None ->
     exists f rest,
       dict_values (Resistor.emission_factors self) = f :: rest /\
       Resistor.call_get_carbon self (Some n) None
         = ([WARN; DEBUG], Return (mkCarbon (f *z n) FABRICATION)) /\
       forall t, dict_get (Resistor.emission_factors self) t = None ->
         Resistor.get_carbon self n t
           = ([WARN; DEBUG], Return (mkCarbon (f *z n) FABRICATION))).
Proof.
  intros Hinit. apply Resistor_init_not_empty in Hinit.
  destruct (dict_not_empty_values _ Hinit) as (x & xs & Hv). split.
  - intros f H0805. split.
    + by apply Resistor_get_carbon_present.
    + intros t Ht. rewrite (Resistor_get_carbon_absent self n t x xs Ht Hv).
      unfold dict_get_default. by rewrite H0805.
  - intros H0805. exists x, xs. split; [done|].
    assert (Hdflt : dict_get_default (Resistor.emission_factors self) Resistor.PKG_0805 x = x)
      by (unfold dict_get_default; by rewrite H0805).
    split.
    + unfold Resistor.call_get_carbon; simpl.
      by rewrite (Resistor_get_carbon_absent self n _ x xs H0805 Hv), Hdflt.
    + intros t Ht. by rewrite (Resistor_get_carbon_absent self n t x xs Ht Hv), Hdflt.
Qed.

(** C8 on the Resistor model built from [resistor_generic_only], which
    has no [0805] entry. *)
Lemma C8_witness :
  Resistor.call_get_carbon (Resistor.mk [(Resistor.GENERIC, kilograms (Qc_of_Z 5))])
    (Some 3%Z) None
  = ([WARN; DEBUG], Return (mkCarbon (kilograms (Qc_of_Z 5) *z 3) FABRICATION)).
Proof.
  assert (Hinit : returns (Resistor.__init__ resistor_generic_only)
            (Resistor.mk [(Resistor.GENERIC, kilograms (Qc_of_Z 5))]))
    by reflexivity.
  destruct (proj2 (C8_resistor_default_and_fallback _ _ 3 Hinit) eq_refl)
    as (f & rest & Hv & Hcall & _).
  injection Hv as <- <-. exact Hcall.
Defined.

(** C8 as stated fails: from a document that has only [generic], the
    constructor builds a model without a [0805] entry, and a call without
    a type returns the [generic] factor times [n], after a warning. *)
Lemma C8_counterexample :
  returns (Resistor.__init__ resistor_generic_only)
    (Resistor.mk [(Resistor.GENERIC, kilograms (Qc_of_Z 5))]) /\
  Resistor.call_get_carbon (Resistor.mk [(Resistor.GENERIC, kilograms (Qc_of_Z 5))])
    (Some 3%Z) None
  = ([WARN; DEBUG], Return (mkCarbon (kilograms (Qc_of_Z 5) *z 3) FABRICATION)) /\
  ~ exists f,
      dict_get [(Resistor.GENERIC, kilograms (Qc_of_Z 5))] Resistor.PKG_0805 = Some f /\
      returns (Resistor.call_get_carbon
                 (Resistor.mk [(Resistor.GENERIC, kilograms (Qc_of_Z 5))]) (Some 3%Z) None)
        (mkCarbon (f *z 3) FABRICATION).
Proof.
  split; [reflexivity|]. split; [reflexivity|].
  intros (f & Hf & _). discriminate Hf.
Qed.

(** With both entries in the table a call without a type uses [0805],
    not [generic]. *)
Example Resistor_default_is_0805_not_generic :
  returns (Resistor.__init__ resistor_generic_and_0805)
    (Resistor.mk [(Resistor.GENERIC, kilograms (Qc_of_Z 5));
                  (Resistor.PKG_0805, kilograms (Qc_of_Z 9))]) /\
  Resistor.call_get_carbon
    (Resistor.mk [(Resistor.GENERIC, kilograms (Qc_of_Z 5));
                  (Resistor.PKG_0805, kilograms (Qc_of_Z 9))]) (Some 3%Z) None
  = ([DEBUG], Return (mkCarbon (kilograms (Qc_of_Z 9) *z 3) FABRICATION)).
Proof. split; reflexivity. Qed.

(** ** The inductor model *)

(** With a weight supplied the call is in weight-based mode: the type is
    never looked at. *)
Lemma Inductor_get_carbon_weight self n t X :
  Inductor.get_carbon self n t (Some X) =
  if check X kg then
    match Inductor.weight_based_factor self with
    | Some wf => ([DEBUG], Return (mkCarbon (X * wf *z n) INDUCTOR))
    | None => ([ERROR], Return (mkCarbon Inductor.zero_kg INDUCTOR))
    end
  else ([], Raise AssertionError).
Proof.
  unfold Inductor.get_carbon.
  rewrite (bool_decide_eq_false_2 (Some X = None)) by done.
  rewrite andb_false_r.
  destruct (check X kg); simpl; [|done].
  by destruct (Inductor.weight_based_factor self).
Qed.

(** Without a weight, a package type with an entry: its factor times the
    count. *)
Lemma Inductor_get_carbon_package_present self n t f :
  t ∈ [Inductor.PKG_0201; Inductor.PKG_0402; Inductor.PKG_0603; Inductor.PKG_0805;
       Inductor.GENERIC] ->
  dict_get (Inductor.package_emission_factors self) t = Some f ->
  Inductor.get_carbon self n t None
  = ([DEBUG], Return (mkCarbon (f *z n) INDUCTOR)).
Proof.
  intros Hpkg Ht. unfold Inductor.get_carbon.
  rewrite (bool_decide_eq_true_2 _ Hpkg). simpl.
  rewrite (proj2 (dict_contains_true _ _)) by (by rewrite Ht). simpl.
  by rewrite (dict_getitem_Some _ _ _ Ht).
Qed.

(** Without a weight, a package type without an entry, in a table that is
    not empty: a warning, then the [0805] factor or the first factor. *)
Lemma Inductor_get_carbon_package_absent self n t x xs :
  t ∈ [Inductor.PKG_0201; Inductor.PKG_0402; Inductor.PKG_0603; Inductor.PKG_0805;
       Inductor.GENERIC] ->
  dict_get (Inductor.package_emission_factors self) t = None ->
  dict_values (Inductor.package_emission_factors self) = x :: xs ->
  Inductor.get_carbon self n t None
  = ([WARN; DEBUG],
     Return (mkCarbon
       (dict_get_default (Inductor.package_emission_factors self) Inductor.PKG_0805 x *z n)
       INDUCTOR)).
Proof.
  intros Hpkg Ht Hv. unfold Inductor.get_carbon.
  rewrite (bool_decide_eq_true_2 _ Hpkg). simpl.
  rewrite (proj2 (dict_contains_false _ _) Ht). simpl. by rewrite Hv.
Qed.

(** Without a weight, a package type, and an empty package table: the
    default argument [list(...)[0]] of the fallback raises. *)
Lemma Inductor_get_carbon_package_empty self n t :
  t ∈ [Inductor.PKG_0201; Inductor.PKG_0402; Inductor.PKG_0603; Inductor.PKG_0805;
       Inductor.GENERIC] ->
  Inductor.package_emission_factors self = [] ->
  Inductor.get_carbon self n t None = ([WARN], Raise IndexError).
Proof.
  intros Hpkg He. unfold Inductor.get_carbon.
  rewrite (bool_decide_eq_true_2 _ Hpkg). simpl. by rewrite He.
Qed.

(** C2, as the code has it.  Without a weight, a package type [t] is
    served from the package table: by its own entry when it has one,
    otherwise, after a warning, by the [0805] entry or the first entry of
    a table that is not empty.  With a weight [X] the type is ignored:
    any two types give the same outcome; it is [X * weight_based_factor * n]
    when [X] is a mass and the factor is configured, a zero when [X] is a
    mass and no factor is configured, and an [AssertionError] when [X] is
    not a mass. *)
Theorem C2_inductor_mode_selection self (n : Z) (t : Inductor.InductorType) :
  t ∈ [Inductor.PKG_0201; Inductor.PKG_0402; Inductor.PKG_0603; Inductor.PKG_0805;
       Inductor.GENERIC] ->
  (forall f, dict_get (Inductor.package_emission_factors self) t = Some f ->
     Inductor.get_carbon self n t None
     = ([DEBUG], Return (mkCarbon (f *z n) INDUCTOR))) /\
  (forall x xs,
     dict_get (Inductor.package_emission_factors self) t = None ->
     dict_values (Inductor.package_emission_factors self) = x :: xs ->
     Inductor.get_carbon self n t None
     = ([WARN; DEBUG],
        Return (mkCarbon
          (dict_get_default (Inductor.package_emission_factors self) Inductor.PKG_0805 x
             *z n) INDUCTOR))) /\
  (forall X t', Inductor.get_carbon self n t (Some X) = Inductor.get_carbon self n t' (Some X)) /\
  (forall X wf, check X kg = true -> Inductor.weight_based_factor self = Some wf ->
     Inductor.get_carbon self n t (Some X)
     = ([DEBUG], Return (mkCarbon (X * wf *z n) INDUCTOR))) /\
  (forall X, check X kg = true -> Inductor.weight_based_factor self = None ->
     Inductor.get_carbon self n t (Some X)
     = ([ERROR], Return (mkCarbon Inductor.zero_kg INDUCTOR))) /\
  (forall X, check X kg = false ->
     Inductor.get_carbon self n t (Some X) = ([], Raise AssertionError)).
Proof.
  intros Hpkg. repeat split.
  - intros f Hf. by apply Inductor_get_carbon_package_present.
  - intros x xs Ht Hv. by apply (Inductor_get_carbon_package_absent self n t x xs).
  - intros X t'. by rewrite !Inductor_get_carbon_weight.
  - intros X wf HX Hwf. by rewrite Inductor_get_carbon_weight, HX, Hwf.
  - intros X HX Hwf. by rewrite Inductor_get_carbon_weight, HX, Hwf.
  - intros X HX. by rewrite Inductor_get_carbon_weight, HX.
Qed.

(** C2 on an Inductor model with a ["0402"] entry, five inductors, no
    weight. *)
Lemma C2_witness :
  Inductor.get_carbon (Inductor.mk None [(Inductor.PKG_0402, kilograms (Qc_of_Z 2))])
    5 Inductor.PKG_0402 None
  = ([DEBUG], Return (mkCarbon (kilograms (Qc_of_Z 2) *z 5) INDUCTOR)).
Proof.
  assert (Hpkg : Inductor.PKG_0402 ∈
            [Inductor.PKG_0201; Inductor.PKG_0402; Inductor.PKG_0603; Inductor.PKG_0805;
             Inductor.GENERIC]) by (apply (bool_decide_unpack _); vm_compute; exact I).
  exact (proj1 (C2_inductor_mode_selection
                  (Inductor.mk None [(Inductor.PKG_0402, kilograms (Qc_of_Z 2))])
                  5 Inductor.PKG_0402 Hpkg) _ eq_refl).
Defined.

(** C2 as stated fails: the model built from a document that has only
    ["0402"] has no weight-based factor, and [get_carbon(n=5,
    type=PKG_0402, weight=3 kg)] returns zero, not weight times a factor
    times five. *)
Lemma C2_counterexample :
  returns (Inductor.__init__ only_0402)
    (Inductor.mk None [(Inductor.PKG_0402, kilograms (Qc_of_Z 2))]) /\
  Inductor.get_carbon (Inductor.mk None [(Inductor.PKG_0402, kilograms (Qc_of_Z 2))])
    5 Inductor.PKG_0402 (Some (kilograms (Qc_of_Z 3)))
  = ([ERROR], Return (mkCarbon Inductor.zero_kg INDUCTOR)) /\
  ~ exists wf,
      Inductor.weight_based_factor
        (Inductor.mk None [(Inductor.PKG_0402, kilograms (Qc_of_Z 2))]) = Some wf /\
      returns (Inductor.get_carbon
                 (Inductor.mk None [(Inductor.PKG_0402, kilograms (Qc_of_Z 2))])
                 5 Inductor.PKG_0402 (Some (kilograms (Qc_of_Z 3))))
        (mkCarbon (kilograms (Qc_of_Z 3) * wf *z 5) INDUCTOR).
Proof.
  split; [reflexivity|]. split; [reflexivity|].
  intros (wf & Hwf & _). discriminate Hwf.
Qed.

(** C7 at the failing input: the constructor accepts a document that
    configures the weight-based mode alone, and on the model it builds a
    call with the default arguments (type [GENERIC], no weight) raises
    [IndexError] while resolving the type. *)
Theorem C7_inductor_resolution_raises :
  returns (Inductor.__init__ only_weight_based)
    (Inductor.mk (Some (mkQuantity (Qc_of_Z 7) dimensionless)) []) /\
  dict_get (Inductor.package_emission_factors
              (Inductor.mk (Some (mkQuantity (Qc_of_Z 7) dimensionless)) []))
    Inductor.GENERIC = None /\
  Inductor.get_carbon (Inductor.mk (Some (mkQuantity (Qc_of_Z 7) dimensionless)) [])
    1 Inductor.GENERIC None
  = ([WARN], Raise IndexError).
Proof. split; [reflexivity|]. split; reflexivity. Qed.

(** ** The capacitor model *)

(** Package-based branch. *)
Lemma Capacitor_get_carbon_package self ci ctype w n f :
  dict_get (Capacitor.package_model self) ctype = Some f ->
  Capacitor.get_carbon self ci ctype w n
  = ([], Return (mkCarbon (f *z n) PASSIVES)).
Proof.
  intros Hp. unfold Capacitor.get_carbon.
  rewrite (proj2 (dict_contains_true _ _)) by (by rewrite Hp).
  by rewrite (dict_getitem_Some _ _ _ Hp).
Qed.

(** Energy-based branch, with the location in the intensity table. *)
Lemma Capacitor_get_carbon_energy self ci ctype w n e c :
  dict_get (Capacitor.package_model self) ctype = None ->
  dict_get (Capacitor.capacitor_model self) ctype = Some e ->
  dict_get (Capacitor.ci_model self) ci = Some c ->
  Capacitor.get_carbon self ci ctype w n
  = ([], Return (mkCarbon (e * w *z n * c) PASSIVES)).
Proof.
  intros Hp He Hc. unfold Capacitor.get_carbon.
  rewrite (proj2 (dict_contains_false _ _) Hp).
  rewrite (proj2 (dict_contains_true _ _)) by (by rewrite He).
  by rewrite (dict_getitem_Some _ _ _ He), (dict_getitem_Some _ _ _ Hc).
Qed.

(** Rescue fallback. *)
Lemma Capacitor_get_carbon_rescue self ci ctype w n :
  dict_get (Capacitor.package_model self) ctype = None ->
  dict_get (Capacitor.capacitor_model self) ctype = None ->
  Capacitor.get_carbon self ci ctype w n
  = ([], Return (mkCarbon (Capacitor.DEFAULT_CARBON_PER_CAPACITOR *z n) PASSIVES)).
Proof.
  intros Hp He. unfold Capacitor.get_carbon.
  by rewrite (proj2 (dict_contains_false _ _) Hp), (proj2 (dict_contains_false _ _) He).
Qed.

Lemma DEFAULT_CARBON_PER_CAPACITOR_not_zero :
  ~ is_zero Capacitor.DEFAULT_CARBON_PER_CAPACITOR.
Proof. unfold is_zero. intros Hz. by apply (f_equal this) in Hz. Qed.

Lemma default_carbon_times_n_zero (n : Z) :
  is_zero (Capacitor.DEFAULT_CARBON_PER_CAPACITOR *z n) <-> n = 0%Z.
Proof.
  unfold is_zero. simpl. split.
  - intros Hz. apply Qcmult_integral in Hz as [Hz|Hz].
    + by destruct DEFAULT_CARBON_PER_CAPACITOR_not_zero.
    + apply Z2Qc_inj. by rewrite Z2Qc_inj_0.
  - intros ->. rewrite Z2Qc_inj_0. ring.
Qed.

(** C4, as the code has it.  For a type with an entry in neither the
    package table nor the energy table, and every quantity [n], the call
    returns [DEFAULT_CARBON_PER_CAPACITOR * n] tagged [PASSIVES] and raises
    nothing; the default is not zero, and the value returned is zero
    exactly when [n = 0]. *)
Theorem C4_capacitor_rescue_fallback self ci ctype w (n : Z) :
  dict_get (Capacitor.package_model self) ctype = None ->
  dict_get (Capacitor.capacitor_model self) ctype = None ->
  Capacitor.get_carbon self ci ctype w n
  = ([], Return (mkCarbon (Capacitor.DEFAULT_CARBON_PER_CAPACITOR *z n) PASSIVES)) /\
  ~ is_zero Capacitor.DEFAULT_CARBON_PER_CAPACITOR /\
  (is_zero (Capacitor.DEFAULT_CARBON_PER_CAPACITOR *z n) <-> n = 0%Z).
Proof.
  intros Hp He. split; [by apply Capacitor_get_carbon_rescue|].
  split; [apply DEFAULT_CARBON_PER_CAPACITOR_not_zero | apply default_carbon_times_n_zero].
Qed.

(** C4 on [capacitor_mlcc], whose tables have no entry for [tec]. *)
Lemma C4_witness :
  Capacitor.get_carbon capacitor_mlcc JAPAN Capacitor.TEC
    Capacitor.DEFAULT_CAPACITOR_WEIGHT 4
  = ([], Return (mkCarbon (Capacitor.DEFAULT_CARBON_PER_CAPACITOR *z 4) PASSIVES)).
Proof.
  exact (proj1 (C4_capacitor_rescue_fallback capacitor_mlcc JAPAN Capacitor.TEC
                  Capacitor.DEFAULT_CAPACITOR_WEIGHT 4 eq_refl eq_refl)).
Defined.

(** C4 as stated fails at [n = 0]: for a type in neither table the call
    returns the default times zero, which is a zero value. *)
Lemma C4_counterexample :
  dict_get (Capacitor.package_model capacitor_mlcc) Capacitor.TEC = None /\
  dict_get (Capacitor.capacitor_model capacitor_mlcc) Capacitor.TEC = None /\
  Capacitor.get_carbon capacitor_mlcc JAPAN Capacitor.TEC
    Capacitor.DEFAULT_CAPACITOR_WEIGHT 0
  = ([], Return (mkCarbon (Capacitor.DEFAULT_CARBON_PER_CAPACITOR *z 0) PASSIVES)) /\
  is_zero (Capacitor.DEFAULT_CARBON_PER_CAPACITOR *z 0).
Proof.
  split; [reflexivity|]. split; [reflexivity|]. split; [reflexivity|].
  by apply default_carbon_times_n_zero.
Qed.

(** C10.  When the requested type has an entry in the package table, and
    likewise when it has an entry in neither table, two calls that differ
    only in weight and location have the same outcome and the same log;
    and two calls that differ only there and disagree are served by the
    energy-based branch. *)
Theorem C10_capacitor_weight_location_independent self ctype (n : Z) :
  (is_Some (dict_get (Capacitor.package_model self) ctype) \/
   (dict_get (Capacitor.package_model self) ctype = None /\
    dict_get (Capacitor.capacitor_model self) ctype = None) ->
   forall ci ci' w w',
     Capacitor.get_carbon self ci ctype w n = Capacitor.get_carbon self ci' ctype w' n) /\
  (forall ci ci' w w',
     Capacitor.get_carbon self ci ctype w n <> Capacitor.get_carbon self ci' ctype w' n ->
     dict_get (Capacitor.package_model self) ctype = None /\
     is_Some (dict_get (Capacitor.capacitor_model self) ctype)).
Proof.
  split.
  - intros [[f Hp]|[Hp He]] ci ci' w w'.
    + by rewrite !(Capacitor_get_carbon_package self _ ctype _ n f Hp).
    + by rewrite !(Capacitor_get_carbon_rescue self _ ctype _ n Hp He).
  - intros ci ci' w w' Hne.
    destruct (dict_get (Capacitor.package_model self) ctype) as [f|] eqn:Hp.
    + destruct Hne.
      by rewrite !(Capacitor_get_carbon_package self _ ctype _ n f Hp).
    + split; [done|].
      destruct (dict_get (Capacitor.capacitor_model self) ctype) as [e|] eqn:He;
        [by eexists|].
      destruct Hne. by rewrite !(Capacitor_get_carbon_rescue self _ ctype _ n Hp He).
Qed.

(** C10 on [capacitor_mlcc] and a type in neither table: another location
    and another weight give the same result. *)
Lemma C10_witness :
  Capacitor.get_carbon capacitor_mlcc JAPAN Capacitor.TEC Capacitor.DEFAULT_CAPACITOR_WEIGHT 2
  = Capacitor.get_carbon capacitor_mlcc (LOCATION "taiwan"%string) Capacitor.TEC five_mm 2.
Proof.
  exact (proj1 (C10_capacitor_weight_location_independent capacitor_mlcc Capacitor.TEC 2)
           (or_intror (conj eq_refl eq_refl)) _ _ _ _).
Defined.

(** In the energy-based branch the weight does matter. *)
Example Capacitor_energy_branch_depends_on_weight :
  Capacitor.get_carbon capacitor_mlcc JAPAN Capacitor.MLCC (kilograms (Qc_of_Z 1)) 1
  <> Capacitor.get_carbon capacitor_mlcc JAPAN Capacitor.MLCC (kilograms (Qc_of_Z 2)) 1.
Proof.
  rewrite !(Capacitor_get_carbon_energy capacitor_mlcc JAPAN Capacitor.MLCC _ 1 _ _
              eq_refl eq_refl eq_refl).
  intros Heq. injection Heq as Heq. vm_compute in Heq. discriminate Heq.
Qed.

(** C6 at the failing input: the capacitor model, built from a document
    with an [mlcc] entry, takes a weight, is given a length, and returns a
    carbon value computed from it. *)
Theorem C6_capacitor_accepts_wrong_dimension :
  Capacitor.__init__ capacitor_mlcc_doc ci_japan = ([], Return capacitor_mlcc) /\
  check five_mm kg = false /\
  Capacitor.get_carbon capacitor_mlcc JAPAN Capacitor.MLCC five_mm 1
  = ([], Return (mkCarbon
       (mkQuantity (Qc_of_Z 2) (mkDim 0 2 (-2)) * five_mm *z 1
        * mkQuantity (Qc_of_Z 3) (mkDim 0 (-2) 2)) PASSIVES)).
Proof. split; [reflexivity|]. split; reflexivity. Qed.

(** ** Dimension checks *)

(** Every entry point that checks its weight or area aborts on another
    dimension before it computes anything: the five mass-based models, the
    inductor model when a weight is supplied, and the PCB model. *)
Lemma dimension_check_aborts (q : Quantity) :
  (check q kg = false ->
   (forall self t n, Active.get_carbon self q t n = ([], Raise AssertionError)) /\
   (forall self t n, Connector.get_carbon self q t n = ([], Raise AssertionError)) /\
   (forall self t n, Diode.get_carbon self q t n = ([], Raise AssertionError)) /\
   (forall self t n, Other.get_carbon self q t n = ([], Raise AssertionError)) /\
   (forall self t n, Switch.get_carbon self q t n = ([], Raise AssertionError)) /\
   (forall self t n, Inductor.get_carbon self n t (Some q) = ([], Raise AssertionError))) /\
  (check q mm2 = false ->
   forall self layers thickness,
     PCB.get_carbon self q layers thickness = ([], Raise AssertionError)).
Proof.
  split.
  - intros Hq. repeat split; intros self t n.
    + unfold Active.get_carbon. by rewrite Hq.
    + unfold Connector.get_carbon. by rewrite Hq.
    + unfold Diode.get_carbon. by rewrite Hq.
    + unfold Other.get_carbon. by rewrite Hq.
    + unfold Switch.get_carbon. by rewrite Hq.
    + by rewrite Inductor_get_carbon_weight, Hq.
  - intros Hq self layers thickness. unfold PCB.get_carbon. by rewrite Hq.
Qed.

(** ** The PCB model *)

(** C3.  When no thickness path applies (no thickness is supplied, or no
    carbon coefficient is configured), for every area [A] that is an area
    and every layer count [L]: the call returns [table[L] * A] when [L]
    has an entry in the layer table; [I * L * A] when it has none and the
    interpolated average [I] is configured; and it terminates the process
    when neither exists. *)
Theorem C3_pcb_layer_path self (A : Quantity) (L : Z) (thickness : option Quantity) :
  check A mm2 = true ->
  thickness = None \/ PCB.carbon_coefficient self = None ->
  (forall f, dict_get (PCB.model self) (KInt L) = Some f ->
     PCB.get_carbon self A L thickness
     = ([DEBUG], Return (mkCarbon (f * A) FABRICATION))) /\
  (forall I, dict_get (PCB.model self) (KInt L) = None ->
     PCB.interpolated_cpla self = Some I ->
     PCB.get_carbon self A L thickness
     = ([DEBUG], Return (mkCarbon (I *z L * A) FABRICATION))) /\
  (dict_get (PCB.model self) (KInt L) = None ->
   PCB.interpolated_cpla self = None ->
   PCB.get_carbon self A L thickness = ([CRITICAL], SystemExit (-1))).
Proof.
  intros HA Hpath.
  assert (Hlayer : PCB.get_carbon self A L thickness =
    (cpa <-
       (if dict_contains (KInt L) (PCB.model self) then
          dict_getitem (PCB.model self) (KInt L)
        else
          match PCB.interpolated_cpla self with
          | Some interpolated_cpla => ret (interpolated_cpla *z L)%qty
          | None => log CRITICAL ;;; exit (-1)
          end) ;;
     log DEBUG ;;; ret (mkCarbon (cpa * A) FABRICATION))).
  { unfold PCB.get_carbon. rewrite HA. unfold assert. rewrite bind_ret.
    destruct Hpath as [-> | ->]; [done|]. by destruct thickness. }
  rewrite Hlayer. repeat split.
  - intros f Hf. rewrite (proj2 (dict_contains_true _ _)) by (by rewrite Hf).
    by rewrite (dict_getitem_Some _ _ _ Hf).
  - intros I Hf HI. by rewrite (proj2 (dict_contains_false _ _) Hf), HI.
  - intros Hf HI. by rewrite (proj2 (dict_contains_false _ _) Hf), HI.
Qed.

(** The three scenarios of the specification, on constructed models:
    [L = 4] is tabulated, [L = 7] is interpolated, [L = 99] without an
    average terminates. *)
Example PCB_init_with_average :
  PCB.__init__ pcb_with_average
  = ([], Return (PCB.mk [(KInt 4, per_area (Q2Qc (5 # 100)))] [] None
                   (Some (per_area (Q2Qc (2 # 100)))))).
Proof. reflexivity. Qed.

Example PCB_init_without_average :
  PCB.__init__ pcb_without_average
  = ([WARN], Return (PCB.mk [(KInt 4, per_area (Q2Qc (5 # 100)))] [] None None)).
Proof. reflexivity. Qed.

Example PCB_scenario_tabulated :
  PCB.get_carbon (PCB.mk [(KInt 4, per_area (Q2Qc (5 # 100)))] [] None
                    (Some (per_area (Q2Qc (2 # 100))))) area_100 4 None
  = ([DEBUG], Return (mkCarbon (per_area (Q2Qc (5 # 100)) * area_100) FABRICATION)).
Proof. reflexivity. Qed.

Example PCB_scenario_unconfigured :
  PCB.get_carbon (PCB.mk [(KInt 4, per_area (Q2Qc (5 # 100)))] [] None None) area_100 99 None
  = ([CRITICAL], SystemExit (-1)).
Proof. reflexivity. Qed.

(** C3 on the model built from [pcb_with_average]: seven layers are not
    tabulated and the average is used. *)
Lemma C3_witness :
  PCB.get_carbon (PCB.mk [(KInt 4, per_area (Q2Qc (5 # 100)))] [] None
                    (Some (per_area (Q2Qc (2 # 100))))) area_100 7 None
  = ([DEBUG], Return (mkCarbon (per_area (Q2Qc (2 # 100)) *z 7 * area_100) FABRICATION)).
Proof.
  assert (HA : check area_100 mm2 = true) by reflexivity.
  exact (proj1 (proj2 (C3_pcb_layer_path
                         (PCB.mk [(KInt 4, per_area (Q2Qc (5 # 100)))] [] None
                            (Some (per_area (Q2Qc (2 # 100)))))
                         area_100 7 None HA (or_introl eq_refl)))
           _ eq_refl eq_refl).
Defined.

(** ** Construction: when a constructor terminates the process *)

Lemma Active_init_exit doc :
  outcome_of (Active.__init__ doc) = SystemExit (-1) <->
  ~ names Active.of_value doc Active.GENERIC /\
  ~ names Active.of_value doc Active.ACTIVE_GENERIC.
Proof.
  unfold Active.__init__.
  destruct (load_factors_total Active.of_value doc []) as [d Hd].
  rewrite <- !(load_factors_contains_bool Active.of_value doc d _ Hd).
  run. rewrite Hd. simpl.
  destruct (dict_contains Active.GENERIC d) eqn:Hg; simpl; run.
  - split; [discriminate | by intros [? _]].
  - destruct (dict_contains Active.ACTIVE_GENERIC d) eqn:Ha; simpl; run.
    + apply dict_contains_true in Ha as [v Hv].
      rewrite (dict_getitem_Some _ _ _ Hv). run.
      split; [discriminate | by intros [_ ?]].
    + done.
Qed.

Lemma Diode_init_exit doc :
  outcome_of (Diode.__init__ doc) = SystemExit (-1) <->
  ~ names Diode.of_value doc Diode.GENERIC /\
  ~ names Diode.of_value doc Diode.GLASS_SMD.
Proof.
  unfold Diode.__init__.
  destruct (load_factors_total Diode.of_value doc []) as [d Hd].
  rewrite <- !(load_factors_contains_bool Diode.of_value doc d _ Hd).
  run. rewrite Hd. simpl.
  destruct (dict_contains Diode.GENERIC d) eqn:Hg; simpl; run.
  - split; [discriminate | by intros [? _]].
  - destruct (dict_contains Diode.GLASS_SMD d) eqn:Ha; simpl; run.
    + apply dict_contains_true in Ha as [v Hv].
      rewrite (dict_getitem_Some _ _ _ Hv). run.
      split; [discriminate | by intros [_ ?]].
    + done.
Qed.

Lemma Other_init_exit doc :
  outcome_of (Other.__init__ doc) = SystemExit (-1) <->
  ~ names Other.of_value doc Other.GENERIC.
Proof.
  unfold Other.__init__.
  destruct (load_factors_total Other.of_value doc []) as [d Hd].
  rewrite <- (load_factors_contains_bool Other.of_value doc d _ Hd).
  run. rewrite Hd. simpl.
  destruct (dict_contains Other.GENERIC d) eqn:Hg; simpl; run; [|done].
  split; discriminate.
Qed.

Lemma Switch_init_exit doc :
  outcome_of (Switch.__init__ doc) = SystemExit (-1) <->
  ~ names Switch.of_value doc Switch.GENERIC.
Proof.
  unfold Switch.__init__.
  destruct (load_factors_total Switch.of_value doc []) as [d Hd].
  rewrite <- (load_factors_contains_bool Switch.of_value doc d _ Hd).
  run. rewrite Hd. simpl.
  destruct (dict_contains Switch.GENERIC d) eqn:Hg; simpl; run; [|done].
  split; discriminate.
Qed.

Lemma Connector_init_exit doc :
  outcome_of (Connector.__init__ doc) = SystemExit (-1) <->
  ~ names Connector.of_value doc Connector.PERIPHERAL \/
  ~ names Connector.of_value doc Connector.PCI.
Proof.
  unfold Connector.__init__.
  destruct (load_factors_total Connector.of_value doc []) as [d Hd].
  rewrite <- !(load_factors_contains_bool Connector.of_value doc d _ Hd).
  run. rewrite Hd. simpl.
  destruct (dict_contains Connector.PERIPHERAL d) eqn:Hp; simpl; run; [|by split; [left|]].
  destruct (dict_contains Connector.PCI d) eqn:Hc; simpl; run; [|by split; [right|]].
  split; [discriminate | by intros [?|?]].
Qed.



Lemma Inductor_load_total items self : exists self', returns (Inductor.load items self) self'.
Proof.
  revert self. induction items as [|[k v] items IH]; intros self; simpl.
  - by eexists.
  - unfold returns. run. case_bool_decide; simpl; [apply IH|].
    destruct (Inductor.of_value k); simpl; apply IH.
Qed.







(** The capacitor model has no dimension check: whatever the weight, the
    call never raises [AssertionError]. *)
Lemma Capacitor_get_carbon_never_asserts self ci ctype w n :
  outcome_of (Capacitor.get_carbon self ci ctype w n) <> Raise AssertionError.
Proof.
  unfold Capacitor.get_carbon.
  destruct (dict_contains ctype (Capacitor.package_model self)) eqn:Hp.
  - apply dict_contains_true in Hp as [f Hf].
    by rewrite (dict_getitem_Some _ _ _ Hf).
  - destruct (dict_contains ctype (Capacitor.capacitor_model self)) eqn:He; [|done].
    apply dict_contains_true in He as [e He].
    rewrite (dict_getitem_Some _ _ _ He).
    destruct (dict_get (Capacitor.ci_model self) ci) as [c|] eqn:Hc.
    + by rewrite (dict_getitem_Some _ _ _ Hc).
    + by rewrite (dict_getitem_None _ _ Hc).
Qed.

(* ------------------------------------------------------------------ *)
(** ** Further properties of the constructors and the calls           *)
(* ------------------------------------------------------------------ *)

Section last_value_facts.
Context {K V : Type}.
Implicit Types (p : K -> bool) (items : list (K * V)).

Lemma last_value_None p items :
  last_value p items = None <-> forall k v, (k, v) ∈ items -> p k = false.
Proof.
  induction items as [|[k v] items IH]; simpl.
  - split; [|done]. intros _ k v Hin. by apply elem_of_nil in Hin.
  - destruct (last_value p items) as [v'|] eqn:Hl.
    + split; [done|]. intros Hall.
      assert (Some v' = None) as Habs; [|done].
      apply IH. intros k0 v0 Hin. apply (Hall k0 v0). by right.
    + destruct (p k) eqn:Hp.
      * split; [done|]. intros Hall.
        specialize (Hall k v (list_elem_of_here _ _)). congruence.
      * split; [|done]. intros _ k0 v0 Hin.
        apply elem_of_cons in Hin as [[= -> ->]|Hin]; [done|].
        by apply (proj1 IH eq_refl k0 v0).
Qed.

Lemma last_value_Some_elem p items v :
  last_value p items = Some v -> exists k, (k, v) ∈ items /\ p k = true.
Proof.
  induction items as [|[k0 v0] items IH]; simpl; [done|].
  destruct (last_value p items) as [v'|] eqn:Hl.
  - intros [= ->]. destruct (IH eq_refl) as (k & Hin & Hp).
    exists k. split; [by right | done].
  - destruct (p k0) eqn:Hp; [|done]. intros [= ->].
    exists k0. split; [left | done].
Qed.

Lemma NoDup_keys_functional items k v v' :
  NoDup (map fst items) -> (k, v) ∈ items -> (k, v') ∈ items -> v = v'.
Proof.
  induction items as [|[k0 v0] items IH]; intros Hnd Hin Hin';
    [by apply elem_of_nil in Hin|].
  simpl in Hnd. apply NoDup_cons in Hnd as [Hnotin Hnd].
  apply elem_of_cons in Hin as [Heq|Hin];
    apply elem_of_cons in Hin' as [Heq'|Hin'].
  - congruence.
  - injection Heq as -> ->. destruct Hnotin.
    apply list_elem_of_fmap. by exists (k0, v').
  - injection Heq' as -> ->. destruct Hnotin.
    apply list_elem_of_fmap. by exists (k0, v).
  - by apply IH.
Qed.

(** With distinct keys, of which at most one satisfies [p], the last value
    is the value of the entry whose key satisfies [p]. *)
Lemma last_value_unique p items k v :
  NoDup (map fst items) ->
  (forall k1 k2, p k1 = true -> p k2 = true -> k1 = k2) ->
  (k, v) ∈ items -> p k = true ->
  last_value p items = Some v.
Proof.
  intros Hnd Huniq Hin Hp.
  destruct (last_value p items) as [v'|] eqn:Hl.
  - destruct (last_value_Some_elem p items v' Hl) as (k' & Hin' & Hp').
    assert (k' = k) by by apply Huniq. subst k'.
    f_equal. by apply (NoDup_keys_functional items k).
  - pose proof (proj1 (last_value_None p items) Hl k v Hin). congruence.
Qed.

Lemma last_value_perm p items items' :
  NoDup (map fst items) ->
  (forall k1 k2, p k1 = true -> p k2 = true -> k1 = k2) ->
  items ≡ₚ items' ->
  last_value p items = last_value p items'.
Proof.
  intros Hnd Huniq Hperm.
  assert (Hnd' : NoDup (map fst items')) by (by rewrite <- Hperm).
  destruct (last_value p items) as [v|] eqn:Hl.
  - destruct (last_value_Some_elem p items v Hl) as (k & Hin & Hp).
    symmetry. apply (last_value_unique p items' k v Hnd' Huniq); [|done].
    by rewrite <- Hperm.
  - symmetry. apply last_value_None. intros k v Hin.
    apply (proj1 (last_value_None p items) Hl k v). by rewrite Hperm.
Qed.
End last_value_facts.

Section load_lookup.
Context {T : Type} `{EqDecision T} (of_value : ykey -> option T).

Lemma load_factors_lookup (items : document) (d d' : dict T Quantity) (t : T) :
  returns (load_factors of_value items d) d' ->
  dict_get d' t =
  match doc_lookup of_value items t with
  | Some v => Some v
  | None => dict_get d t
  end.
Proof.
  revert d. induction items as [|[k v] items IH]; intros d; simpl.
  - unfold returns; simpl. by intros [= ->].
  - unfold returns. rewrite outcome_bind. unfold doc_lookup in *. simpl.
    destruct (of_value k) as [t'|] eqn:Hk; simpl; intros Hr; apply IH in Hr; rewrite Hr;
      destruct (last_value _ items); try done.
    rewrite dict_get_setitem. case_bool_decide as Hb.
    + injection Hb as ->. by rewrite decide_True.
    + rewrite decide_False; [done | congruence].
Qed.

Lemma load_factors_lookup_empty (doc : document) (d' : dict T Quantity) (t : T) :
  returns (load_factors of_value doc []) d' ->
  dict_get d' t = doc_lookup of_value doc t.
Proof.
  intros Hr. rewrite (load_factors_lookup doc [] d' t Hr). simpl.
  by destruct (doc_lookup of_value doc t).
Qed.

(** One warning for each unknown key, in any case. *)
Lemma load_factors_log (items : document) (d : dict T Quantity) :
  fst (load_factors of_value items d) = replicate (unknown_keys of_value items) WARN.
Proof.
  revert d. induction items as [|[k v] items IH]; intros d; simpl; [done|].
  destruct (of_value k) as [t'|]; simpl.
  - specialize (IH (dict_setitem d t' v)).
    destruct (load_factors of_value items (dict_setitem d t' v)) as [l [a|e|c]]; simpl in *;
      try done.
  - specialize (IH d).
    destruct (load_factors of_value items d) as [l [a|e|c]]; simpl in *; by f_equal.
Qed.
End load_lookup.

(** ** Constructed tables *)

Lemma Other_init_table doc self t :
  returns (Other.__init__ doc) self ->
  dict_get (Other.emission_factors self) t = doc_lookup Other.of_value doc t.
Proof.
  unfold Other.__init__.
  destruct (load_factors_total Other.of_value doc []) as [d Hd].
  pose proof (load_factors_lookup_empty Other.of_value doc d t Hd) as Hl.
  init_cases Hd.
  destruct (dict_contains Other.GENERIC d); simpl; run; [|discriminate].
  by intros [= <-].
Qed.

Lemma Switch_init_table doc self t :
  returns (Switch.__init__ doc) self ->
  dict_get (Switch.emission_factors self) t = doc_lookup Switch.of_value doc t.
Proof.
  unfold Switch.__init__.
  destruct (load_factors_total Switch.of_value doc []) as [d Hd].
  pose proof (load_factors_lookup_empty Switch.of_value doc d t Hd) as Hl.
  init_cases Hd.
  destruct (dict_contains Switch.GENERIC d); simpl; run; [|discriminate].
  by intros [= <-].
Qed.

Lemma Connector_init_table doc self t :
  returns (Connector.__init__ doc) self ->
  dict_get (Connector.emission_factors self) t = doc_lookup Connector.of_value doc t.
Proof.
  unfold Connector.__init__.
  destruct (load_factors_total Connector.of_value doc []) as [d Hd].
  pose proof (load_factors_lookup_empty Connector.of_value doc d t Hd) as Hl.
  init_cases Hd.
  destruct (dict_contains Connector.PERIPHERAL d); simpl; run; [|discriminate].
  destruct (dict_contains Connector.PCI d); simpl; run; [|discriminate].
  by intros [= <-].
Qed.

Lemma Active_init_table doc self t :
  returns (Active.__init__ doc) self ->
  dict_get (Active.emission_factors self) t =
  if decide (t = Active.GENERIC) then
    match doc_lookup Active.of_value doc Active.GENERIC with
    | Some v => Some v
    | None => doc_lookup Active.of_value doc Active.ACTIVE_GENERIC
    end
  else doc_lookup Active.of_value doc t.
Proof.
  unfold Active.__init__.
  destruct (load_factors_total Active.of_value doc []) as [d Hd].
  rewrite <- !(load_factors_lookup_empty Active.of_value doc d _ Hd).
  init_cases Hd.
  destruct (dict_contains Active.GENERIC d) eqn:Hg; simpl; run.
  - intros [= <-]. simpl. apply dict_contains_true in Hg as [g Hg].
    rewrite Hg. by destruct (decide (t = Active.GENERIC)) as [->|].
  - apply dict_contains_false in Hg. rewrite Hg.
    destruct (dict_contains Active.ACTIVE_GENERIC d) eqn:Ha; simpl; run; [|discriminate].
    apply dict_contains_true in Ha as [v Hv].
    rewrite (dict_getitem_Some _ _ _ Hv). run. intros [= <-]. simpl.
    rewrite dict_get_setitem.
    destruct (decide (t = Active.GENERIC)) as [->|Hne].
    + by rewrite decide_True.
    + by rewrite decide_False.
Qed.

Lemma Diode_init_table doc self t :
  returns (Diode.__init__ doc) self ->
  dict_get (Diode.emission_factors self) t =
  if decide (t = Diode.GENERIC) then
    match doc_lookup Diode.of_value doc Diode.GENERIC with
    | Some v => Some v
    | None => doc_lookup Diode.of_value doc Diode.GLASS_SMD
    end
  else doc_lookup Diode.of_value doc t.
Proof.
  unfold Diode.__init__.
  destruct (load_factors_total Diode.of_value doc []) as [d Hd].
  rewrite <- !(load_factors_lookup_empty Diode.of_value doc d _ Hd).
  init_cases Hd.
  destruct (dict_contains Diode.GENERIC d) eqn:Hg; simpl; run.
  - intros [= <-]. simpl. apply dict_contains_true in Hg as [g Hg].
    rewrite Hg. by destruct (decide (t = Diode.GENERIC)) as [->|].
  - apply dict_contains_false in Hg. rewrite Hg.
    destruct (dict_contains Diode.GLASS_SMD d) eqn:Ha; simpl; run; [|discriminate].
    apply dict_contains_true in Ha as [v Hv].
    rewrite (dict_getitem_Some _ _ _ Hv). run. intros [= <-]. simpl.
    rewrite dict_get_setitem.
    destruct (decide (t = Diode.GENERIC)) as [->|Hne].
    + by rewrite decide_True.
    + by rewrite decide_False.
Qed.

Lemma Resistor_init_table doc self t :
  returns (Resistor.__init__ doc) self ->
  dict_get (Resistor.emission_factors self) t =
  if decide (t = Resistor.GENERIC) then
    match doc_lookup Resistor.of_value doc Resistor.GENERIC with
    | Some v => Some v
    | None => doc_lookup Resistor.of_value doc Resistor.PKG_0805
    end
  else doc_lookup Resistor.of_value doc t.
Proof.
  unfold Resistor.__init__.
  destruct (load_factors_total Resistor.of_value doc []) as [d Hd].
  rewrite <- !(load_factors_lookup_empty Resistor.of_value doc d _ Hd).
  init_cases Hd.
  destruct (dict_is_empty d); simpl; run; [discriminate|].
  destruct (dict_contains Resistor.PKG_0805 d) eqn:H8;
    destruct (dict_contains Resistor.GENERIC d) eqn:Hg; simpl; run.
  - intros [= <-]. simpl. apply dict_contains_true in Hg as [g Hg].
    rewrite Hg. by destruct (decide (t = Resistor.GENERIC)) as [->|].
  - apply dict_contains_true in H8 as [v Hv]. apply dict_contains_false in Hg.
    rewrite (dict_getitem_Some _ _ _ Hv). run. intros [= <-]. simpl.
    rewrite dict_get_setitem, Hg, Hv.
    destruct (decide (t = Resistor.GENERIC)) as [->|Hne].
    + by rewrite decide_True.
    + by rewrite decide_False.
  - intros [= <-]. simpl. apply dict_contains_true in Hg as [g Hg].
    rewrite Hg. by destruct (decide (t = Resistor.GENERIC)) as [->|].
  - intros [= <-]. simpl. apply dict_contains_false in Hg, H8. rewrite Hg, H8.
    by destruct (decide (t = Resistor.GENERIC)) as [->|].
Qed.

(** ** The inductor constructor *)

Lemma inductor_package_key_never_weight_based doc :
  doc_lookup inductor_package_key doc Inductor.WEIGHT_BASED = None.
Proof.
  unfold doc_lookup. apply last_value_None. intros k v _.
  apply bool_decide_eq_false_2. unfold inductor_package_key.
  case_bool_decide as Hk; [done|].
  destruct k as [s|z]; simpl; [|done].
  repeat case_bool_decide; try done. by subst.
Qed.

Lemma Inductor_load_lookup items self self' :
  returns (Inductor.load items self) self' ->
  Inductor.weight_based_factor self' =
    match last_value (fun k => bool_decide (k = KStr "weight_based"%string)) items with
    | Some v => Some v
    | None => Inductor.weight_based_factor self
    end /\
  forall t,
    dict_get (Inductor.package_emission_factors self') t =
    match doc_lookup inductor_package_key items t with
    | Some v => Some v
    | None => dict_get (Inductor.package_emission_factors self) t
    end.
Proof.
  revert self. induction items as [|[k v] items IH]; intros self; simpl.
  - unfold returns; simpl. by intros [= ->].
  - unfold returns. rewrite outcome_bind. unfold doc_lookup in *. simpl.
    destruct (decide (k = KStr "weight_based"%string)) as [Hk|Hk].
    + assert (Hpk : inductor_package_key k = None)
        by (unfold inductor_package_key; by rewrite bool_decide_eq_true_2).
      rewrite (bool_decide_eq_true_2 _ Hk). simpl.
      intros Hr. apply IH in Hr as [Hw Hp]. simpl in *. split.
      * rewrite Hw. destruct (last_value _ items); try done.
      * intros t. rewrite Hp, Hpk.
        destruct (last_value (fun k0 => bool_decide (inductor_package_key k0 = Some t)) items);
          [done|].
        by rewrite ?bool_decide_eq_false_2.
    + assert (Hpk : inductor_package_key k = Inductor.of_value k)
        by (unfold inductor_package_key; by rewrite bool_decide_eq_false_2).
      rewrite (bool_decide_eq_false_2 _ Hk). simpl. rewrite Hpk.
      destruct (Inductor.of_value k) as [t'|] eqn:Hof; simpl;
        intros Hr; apply IH in Hr as [Hw Hp]; simpl in *; split.
      * rewrite Hw. destruct (last_value _ items); try done.
      * intros t. rewrite Hp.
        destruct (last_value (fun k0 => bool_decide (inductor_package_key k0 = Some t)) items);
          [done|].
        rewrite dict_get_setitem. case_bool_decide as Hb.
        -- injection Hb as ->. by rewrite decide_True.
        -- rewrite decide_False; [done | congruence].
      * rewrite Hw. destruct (last_value _ items); try done.
      * intros t. rewrite Hp.
        destruct (last_value (fun k0 => bool_decide (inductor_package_key k0 = Some t)) items);
          [done|].
        by rewrite ?bool_decide_eq_false_2.
Qed.

Lemma Inductor_init_table doc self :
  returns (Inductor.__init__ doc) self ->
  Inductor.weight_based_factor self =
    last_value (fun k => bool_decide (k = KStr "weight_based"%string)) doc /\
  forall t,
    dict_get (Inductor.package_emission_factors self) t =
    if decide (t = Inductor.GENERIC) then
      match doc_lookup inductor_package_key doc Inductor.PKG_0805 with
      | Some v => Some v
      | None => doc_lookup inductor_package_key doc Inductor.GENERIC
      end
    else doc_lookup inductor_package_key doc t.
Proof.
  unfold Inductor.__init__.
  destruct (Inductor_load_total doc (Inductor.mk None [])) as [s Hs].
  destruct (Inductor_load_lookup doc _ s Hs) as [Hw Hp]. simpl in Hw, Hp.
  assert (Hp' : forall t, dict_get (Inductor.package_emission_factors s) t
                          = doc_lookup inductor_package_key doc t).
  { intros t. rewrite Hp. by destruct (doc_lookup inductor_package_key doc t). }
  assert (Hw' : Inductor.weight_based_factor s
                = last_value (fun k => bool_decide (k = KStr "weight_based"%string)) doc).
  { rewrite Hw. by destruct (last_value _ doc). }
  unfold returns. run. rewrite Hs.
  destruct (dict_contains Inductor.PKG_0805 (Inductor.package_emission_factors s)) eqn:H8;
    simpl.
  - apply dict_contains_true in H8 as [v Hv].
    rewrite (dict_getitem_Some _ _ _ Hv). run. intros [= <-]. simpl.
    split; [done|]. intros t. rewrite dict_get_setitem, <- !Hp', Hv.
    destruct (decide (t = Inductor.GENERIC)) as [->|Hne].
    + by rewrite decide_True.
    + by rewrite decide_False.
  - intros [= <-]. split; [done|]. intros t.
    apply dict_contains_false in H8. rewrite <- !Hp', H8.
    by destruct (decide (t = Inductor.GENERIC)) as [->|].
Qed.

(** ** The capacitor constructor *)

Lemma Capacitor_load_lookup items cm pm t :
  dict_get (Capacitor.load items cm pm).1 t =
    match (if bool_decide (t ∈ [Capacitor.MLCC; Capacitor.TEC; Capacitor.GENERIC])
           then doc_lookup Capacitor.of_value items t else None) with
    | Some v => Some v
    | None => dict_get cm t
    end /\
  dict_get (Capacitor.load items cm pm).2 t =
    match (if bool_decide (t ∈ [Capacitor.MLCC; Capacitor.TEC; Capacitor.GENERIC])
           then None else doc_lookup Capacitor.of_value items t) with
    | Some v => Some v
    | None => dict_get pm t
    end.
Proof.
  revert cm pm. induction items as [|[k v] items IH]; intros cm pm; simpl.
  - by destruct (bool_decide _).
  - unfold doc_lookup in *. simpl.
    destruct (Capacitor.of_value k) as [t'|] eqn:Hof.
    + destruct (decide (t' ∈ [Capacitor.MLCC; Capacitor.TEC; Capacitor.GENERIC]))
        as [He|He];
        [ rewrite (bool_decide_eq_true_2 _ He);
          destruct (IH (dict_setitem cm t' v) pm) as [-> ->]
        | rewrite (bool_decide_eq_false_2 _ He);
          destruct (IH cm (dict_setitem pm t' v)) as [-> ->] ];
        clear IH;
        (destruct (decide (t ∈ [Capacitor.MLCC; Capacitor.TEC; Capacitor.GENERIC]))
           as [Ht|Ht];
         rewrite ?(bool_decide_eq_true_2 _ Ht), ?(bool_decide_eq_false_2 _ Ht);
         destruct (last_value (fun k0 => bool_decide (Capacitor.of_value k0 = Some t)) items);
         try done; rewrite dict_get_setitem;
         split;
         first
           [ done
           | by destruct (bool_decide (Some t' = Some t))
           | rewrite decide_False; [done | by intros ->]
           | destruct (decide (t' = t)) as [->|Hne];
             [ by rewrite bool_decide_eq_true_2
             | by rewrite bool_decide_eq_false_2 by congruence ] ]).
    + destruct (IH cm pm) as [-> ->]. clear IH.
      destruct (bool_decide (t ∈ [Capacitor.MLCC; Capacitor.TEC; Capacitor.GENERIC]));
        destruct (last_value (fun k0 => bool_decide (Capacitor.of_value k0 = Some t)) items);
        try done; by rewrite ?bool_decide_eq_false_2.
Qed.

(** ** The PCB constructor *)

Lemma dict_get_None_last_value {K V} `{EqDecision K} (d : list (K * V)) (k : K) :
  dict_get d k = None <-> last_value (fun k0 => bool_decide (k0 = k)) d = None.
Proof.
  induction d as [|[k0 v0] d IH]; simpl; [done|].
  destruct (decide (k = k0)) as [->|Hne].
  - split; [done|]. destruct (last_value _ d); [done|].
    by rewrite bool_decide_eq_true_2.
  - rewrite IH. destruct (last_value _ d); [done|].
    by rewrite bool_decide_eq_false_2.
Qed.

Lemma pcb_well_shaped_cons k v items :
  pcb_well_shaped ((k, v) :: items) ->
  (if bool_decide (k = KStr "typical_thickness"%string)
   then exists m, v = PCB.VMap m else exists q, v = PCB.VQty q) /\
  pcb_well_shaped items.
Proof.
  intros Hws. split; [apply (Hws k v); left|].
  intros k0 v0 Hin. apply (Hws k0 v0). by right.
Qed.

(** Case on what the rest of the document says, then on the key at hand. *)
Ltac lv_cases items :=
  match goal with
  | |- context [last_value ?p items] =>
      destruct (last_value p items); [done|];
      by rewrite ?bool_decide_eq_true_2, ?bool_decide_eq_false_2 by done
  end.

Lemma PCB_load_lookup items self :
  pcb_well_shaped items ->
  exists self',
    returns (PCB.load items self) self' /\
    PCB.interpolated_cpla self' =
      match last_value (fun k0 => bool_decide (k0 = PCB.INTERPOLATED_AVERAGE_KEY)) items with
      | Some v => as_quantity v
      | None => PCB.interpolated_cpla self
      end /\
    PCB.carbon_coefficient self' =
      match last_value (fun k0 => bool_decide (k0 = KStr "carbon_coefficient"%string)) items with
      | Some v => as_quantity v
      | None => PCB.carbon_coefficient self
      end /\
    forall k,
      dict_get (PCB.model self') k =
      match (if pcb_reserved k then None
             else last_value (fun k0 => bool_decide (k0 = k)) items) with
      | Some v => as_quantity v
      | None => dict_get (PCB.model self) k
      end.
Proof.
  unfold PCB.INTERPOLATED_AVERAGE_KEY.
  revert self. induction items as [|[k v] items IH]; intros self Hws; simpl.
  - exists self. split; [done|]. split; [done|]. split; [done|].
    intros k. by destruct (pcb_reserved k).
  - apply pcb_well_shaped_cons in Hws as [Hv Hws].
    unfold returns. rewrite outcome_bind.
    destruct (decide (k = KStr "cpla"%string)) as [Hk1|Hk1].
    { subst k. simpl in Hv. destruct Hv as [q ->]. simpl.
      destruct (IH (PCB.mk (PCB.model self) (PCB.typical_thickness self)
                      (PCB.carbon_coefficient self) (Some q)) Hws)
        as (self' & Hr & Hi & Hc & Hm).
      exists self'. split; [done|]. simpl in *. rewrite Hi, Hc. clear Hi Hc.
      split; [lv_cases items|]. split; [lv_cases items|].
      intros k. rewrite Hm. unfold pcb_reserved.
      destruct (decide (k = KStr "cpla"%string)) as [->|Hne]; [done|].
      destruct (_ || _); [done|].
      destruct (last_value (fun k0 => bool_decide (k0 = k)) items); [done|].
      by rewrite bool_decide_eq_false_2. }
    rewrite (bool_decide_eq_false_2 _ Hk1).
    destruct (decide (k = KStr "typical_thickness"%string)) as [Hk2|Hk2].
    { subst k. simpl in Hv. destruct Hv as [m ->]. simpl.
      destruct (IH (PCB.mk (PCB.model self) m
                      (PCB.carbon_coefficient self) (PCB.interpolated_cpla self)) Hws)
        as (self' & Hr & Hi & Hc & Hm).
      exists self'. split; [done|]. simpl in *. rewrite Hi, Hc. clear Hi Hc.
      split; [lv_cases items|]. split; [lv_cases items|].
      intros k. rewrite Hm. unfold pcb_reserved.
      destruct (decide (k = KStr "typical_thickness"%string)) as [->|Hne]; [done|].
      destruct (_ || _); [done|].
      destruct (last_value (fun k0 => bool_decide (k0 = k)) items); [done|].
      by rewrite bool_decide_eq_false_2. }
    rewrite (bool_decide_eq_false_2 _ Hk2) in Hv |- *. destruct Hv as [q ->].
    destruct (decide (k = KStr "carbon_coefficient"%string)) as [Hk3|Hk3].
    { subst k. simpl.
      destruct (IH (PCB.mk (PCB.model self) (PCB.typical_thickness self)
                      (Some q) (PCB.interpolated_cpla self)) Hws)
        as (self' & Hr & Hi & Hc & Hm).
      exists self'. split; [done|]. simpl in *. rewrite Hi, Hc. clear Hi Hc.
      split; [lv_cases items|]. split; [lv_cases items|].
      intros k. rewrite Hm. unfold pcb_reserved.
      destruct (decide (k = KStr "carbon_coefficient"%string)) as [->|Hne]; [done|].
      destruct (_ || _); [done|].
      destruct (last_value (fun k0 => bool_decide (k0 = k)) items); [done|].
      by rewrite bool_decide_eq_false_2. }
    rewrite (bool_decide_eq_false_2 _ Hk3). simpl.
    destruct (IH (PCB.mk (dict_setitem (PCB.model self) k q) (PCB.typical_thickness self)
                    (PCB.carbon_coefficient self) (PCB.interpolated_cpla self)) Hws)
      as (self' & Hr & Hi & Hc & Hm).
    exists self'. split; [done|]. simpl in *. rewrite Hi, Hc. clear Hi Hc.
    split; [lv_cases items|]. split; [lv_cases items|].
    intros k'. rewrite Hm, dict_get_setitem.
    destruct (pcb_reserved k') eqn:Hres.
    + rewrite decide_False; [done|]. intros ->. unfold pcb_reserved in Hres.
      by rewrite !bool_decide_eq_false_2 in Hres.
    + destruct (last_value (fun k0 => bool_decide (k0 = k')) items); [done|].
      destruct (decide (k = k')) as [->|Hne].
      * by rewrite bool_decide_eq_true_2.
      * by rewrite bool_decide_eq_false_2.
Qed.

Lemma PCB_init_table doc :
  pcb_well_shaped doc ->
  exists self,
    returns (PCB.__init__ doc) self /\
    PCB.interpolated_cpla self =
      last_value (fun k0 => bool_decide (k0 = PCB.INTERPOLATED_AVERAGE_KEY)) doc
        ≫= as_quantity /\
    PCB.carbon_coefficient self =
      last_value (fun k0 => bool_decide (k0 = KStr "carbon_coefficient"%string)) doc
        ≫= as_quantity /\
    forall k,
      dict_get (PCB.model self) k =
      if pcb_reserved k then None
      else last_value (fun k0 => bool_decide (k0 = k)) doc ≫= as_quantity.
Proof.
  intros Hws.
  destruct (PCB_load_lookup doc (PCB.mk [] [] None None) Hws)
    as (s & Hr & Hi & Hc & Hm). simpl in Hi, Hc, Hm.
  assert (Hm' : forall k, dict_get (PCB.model s) k =
                  if pcb_reserved k then None
                  else last_value (fun k0 => bool_decide (k0 = k)) doc ≫= as_quantity).
  { intros k. rewrite Hm. destruct (pcb_reserved k); [done|].
    by destruct (last_value _ doc). }
  unfold PCB.__init__, returns. run. rewrite Hr.
  rewrite (proj2 (dict_contains_false _ _) (Hm' PCB.INTERPOLATED_AVERAGE_KEY)). simpl.
  destruct (dict_contains PCB.INTERPOLATED_AVERAGE_KEY doc) eqn:Hcp; simpl.
  - exists s. split; [done|]. rewrite Hi, Hc.
    split; [by destruct (last_value _ doc)|].
    split; [by destruct (last_value _ doc)|]. done.
  - eexists. split; [done|]. simpl. rewrite Hc.
    apply dict_contains_false, dict_get_None_last_value in Hcp. rewrite Hcp.
    split; [done|]. split; [by destruct (last_value _ doc)|]. done.
Qed.

Lemma Capacitor_init_tables (doc : document) (ci : dict EnergyLocation Quantity) :
  exists self,
    Capacitor.__init__ doc ci = ([], Return self) /\
    Capacitor.ci_model self = ci /\
    forall t,
      dict_get (Capacitor.capacitor_model self) t =
        (if bool_decide (t ∈ [Capacitor.MLCC; Capacitor.TEC; Capacitor.GENERIC])
         then doc_lookup Capacitor.of_value doc t else None) /\
      dict_get (Capacitor.package_model self) t =
        (if bool_decide (t ∈ [Capacitor.MLCC; Capacitor.TEC; Capacitor.GENERIC])
         then None else doc_lookup Capacitor.of_value doc t).
Proof.
  unfold Capacitor.__init__.
  destruct (Capacitor.load doc [] []) as [cm pm] eqn:Hl.
  eexists. split; [done|]. split; [done|]. intros t. simpl.
  destruct (Capacitor_load_lookup doc [] [] t) as [H1 H2].
  rewrite Hl in H1, H2. simpl in H1, H2. rewrite H1, H2.
  by destruct (bool_decide _); destruct (doc_lookup _ _ _).
Qed.

(** ** Constructors, read against the document *)

(** X1.  The tables the Other, Switch and Connector constructors return
    hold, for every member, the factor the document gives it, and nothing
    else. *)
Theorem X1_plain_tables_mirror_document (doc : document) :
  (forall self, returns (Other.__init__ doc) self ->
     forall t, dict_get (Other.emission_factors self) t
               = doc_lookup Other.of_value doc t) /\
  (forall self, returns (Switch.__init__ doc) self ->
     forall t, dict_get (Switch.emission_factors self) t
               = doc_lookup Switch.of_value doc t) /\
  (forall self, returns (Connector.__init__ doc) self ->
     forall t, dict_get (Connector.emission_factors self) t
               = doc_lookup Connector.of_value doc t).
Proof.
  repeat split; intros self Hinit t.
  - by apply Other_init_table.
  - by apply Switch_init_table.
  - by apply Connector_init_table.
Qed.

(** X1 on [generic_5]: the Other model built from it has the factor five
    under [GENERIC]. *)
Lemma X1_witness :
  dict_get [(Other.GENERIC, mkQuantity (Qc_of_Z 5) dimensionless)] Other.GENERIC
  = doc_lookup Other.of_value generic_5 Other.GENERIC.
Proof.
  assert (Hinit : returns (Other.__init__ generic_5)
            (Other.mk [(Other.GENERIC, mkQuantity (Qc_of_Z 5) dimensionless)]))
    by reflexivity.
  exact (proj1 (X1_plain_tables_mirror_document generic_5) _ Hinit Other.GENERIC).
Defined.

(** X2.  The Active and Diode constructors keep an explicit [generic]
    factor; only when the document has none do they file the factor of
    [active_generic] (Active) or [glass_smd] (Diode) under [GENERIC].
    Every other member has the factor the document gives it. *)
Theorem X2_generic_alias_of_Active_and_Diode (doc : document) :
  (forall self, returns (Active.__init__ doc) self ->
     forall t, dict_get (Active.emission_factors self) t =
       if decide (t = Active.GENERIC) then
         match doc_lookup Active.of_value doc Active.GENERIC with
         | Some v => Some v
         | None => doc_lookup Active.of_value doc Active.ACTIVE_GENERIC
         end
       else doc_lookup Active.of_value doc t) /\
  (forall self, returns (Diode.__init__ doc) self ->
     forall t, dict_get (Diode.emission_factors self) t =
       if decide (t = Diode.GENERIC) then
         match doc_lookup Diode.of_value doc Diode.GENERIC with
         | Some v => Some v
         | None => doc_lookup Diode.of_value doc Diode.GLASS_SMD
         end
       else doc_lookup Diode.of_value doc t).
Proof.
  split; intros self Hinit t.
  - by apply Active_init_table.
  - by apply Diode_init_table.
Qed.

(** X2 on a document with [glass_smd] alone: the Diode model has its
    factor under [GENERIC] too. *)
Lemma X2_witness :
  dict_get [(Diode.GLASS_SMD, mkQuantity (Qc_of_Z 4) dimensionless);
            (Diode.GENERIC, mkQuantity (Qc_of_Z 4) dimensionless)] Diode.GENERIC
  = Some (mkQuantity (Qc_of_Z 4) dimensionless).
Proof.
  assert (Hinit : returns (Diode.__init__ only_glass_smd)
            (Diode.mk [(Diode.GLASS_SMD, mkQuantity (Qc_of_Z 4) dimensionless);
                       (Diode.GENERIC, mkQuantity (Qc_of_Z 4) dimensionless)]))
    by reflexivity.
  exact (proj2 (X2_generic_alias_of_Active_and_Diode only_glass_smd) _ Hinit Diode.GENERIC).
Defined.

(** X3.  The Resistor constructor keeps an explicit [generic] factor; when
    the document has none, [GENERIC] gets the factor of ["0805"], if there
    is one.  Every other member has the factor the document gives it. *)
Theorem X3_Resistor_table_from_document (doc : document) (self : Resistor.ResistorModel) :
  returns (Resistor.__init__ doc) self ->
  forall t, dict_get (Resistor.emission_factors self) t =
    if decide (t = Resistor.GENERIC) then
      match doc_lookup Resistor.of_value doc Resistor.GENERIC with
      | Some v => Some v
      | None => doc_lookup Resistor.of_value doc Resistor.PKG_0805
      end
    else doc_lookup Resistor.of_value doc t.
Proof. intros Hinit t. by apply Resistor_init_table. Qed.

(** X3 on [resistor_generic_and_0805]: the explicit [generic] factor
    stays. *)
Lemma X3_witness :
  dict_get [(Resistor.GENERIC, kilograms (Qc_of_Z 5));
            (Resistor.PKG_0805, kilograms (Qc_of_Z 9))] Resistor.GENERIC
  = Some (kilograms (Qc_of_Z 5)).
Proof.
  assert (Hinit : returns (Resistor.__init__ resistor_generic_and_0805)
            (Resistor.mk [(Resistor.GENERIC, kilograms (Qc_of_Z 5));
                          (Resistor.PKG_0805, kilograms (Qc_of_Z 9))]))
    by reflexivity.
  exact (X3_Resistor_table_from_document resistor_generic_and_0805 _ Hinit Resistor.GENERIC).
Defined.

(** X4.  The Inductor constructor files the value under [weight_based] as
    the weight-based factor and never in the package table; in the package
    table [GENERIC] gets the factor of ["0805"] whenever the document has
    one, also over an explicit [generic] factor, which it keeps only when
    there is no ["0805"]. *)
Theorem X4_Inductor_tables_from_document (doc : document) (self : Inductor.InductorModel) :
  returns (Inductor.__init__ doc) self ->
  Inductor.weight_based_factor self =
    last_value (fun k => bool_decide (k = KStr "weight_based"%string)) doc /\
  dict_get (Inductor.package_emission_factors self) Inductor.WEIGHT_BASED = None /\
  forall t,
    dict_get (Inductor.package_emission_factors self) t =
    if decide (t = Inductor.GENERIC) then
      match doc_lookup inductor_package_key doc Inductor.PKG_0805 with
      | Some v => Some v
      | None => doc_lookup inductor_package_key doc Inductor.GENERIC
      end
    else doc_lookup inductor_package_key doc t.
Proof.
  intros Hinit. destruct (Inductor_init_table doc self Hinit) as [Hw Hp].
  split; [done|]. split; [|done].
  rewrite Hp. simpl. apply inductor_package_key_never_weight_based.
Qed.

(** X4 on [inductor_generic_and_0805]: [GENERIC] has the factor of
    ["0805"], not the explicit one. *)
Lemma X4_witness :
  dict_get [(Inductor.GENERIC, kilograms (Qc_of_Z 9));
            (Inductor.PKG_0805, kilograms (Qc_of_Z 9))] Inductor.GENERIC
  = Some (kilograms (Qc_of_Z 9)).
Proof.
  assert (Hinit : returns (Inductor.__init__ inductor_generic_and_0805)
            (Inductor.mk None [(Inductor.GENERIC, kilograms (Qc_of_Z 9));
                               (Inductor.PKG_0805, kilograms (Qc_of_Z 9))]))
    by reflexivity.
  exact (proj2 (proj2 (X4_Inductor_tables_from_document inductor_generic_and_0805 _ Hinit))
           Inductor.GENERIC).
Defined.

(** X5.  The Capacitor constructor always returns, without a log line; it
    keeps the carbon-intensity table it is given and splits the document:
    [mlcc], [tec] and [generic] go to the energy table, the package sizes
    to the package table, each with the factor the document gives it. *)
Theorem X5_Capacitor_tables_partition_document (doc : document)
    (ci : dict EnergyLocation Quantity) :
  exists self,
    Capacitor.__init__ doc ci = ([], Return self) /\
    Capacitor.ci_model self = ci /\
    forall t,
      dict_get (Capacitor.capacitor_model self) t =
        (if bool_decide (t ∈ [Capacitor.MLCC; Capacitor.TEC; Capacitor.GENERIC])
         then doc_lookup Capacitor.of_value doc t else None) /\
      dict_get (Capacitor.package_model self) t =
        (if bool_decide (t ∈ [Capacitor.MLCC; Capacitor.TEC; Capacitor.GENERIC])
         then None else doc_lookup Capacitor.of_value doc t).
Proof. apply Capacitor_init_tables. Qed.

(** X6.  From a PCB document of the documented shape the constructor
    returns a model whose interpolated average and carbon coefficient are
    the values under [cpla] and [carbon_coefficient] (none when the key is
    absent), and whose layer table holds every other key but
    [typical_thickness] with its value; the three reserved keys never
    enter the layer table. *)
Theorem X6_PCB_tables_from_document (doc : dict ykey PCB.yvalue) :
  pcb_well_shaped doc ->
  exists self,
    returns (PCB.__init__ doc) self /\
    PCB.interpolated_cpla self =
      last_value (fun k0 => bool_decide (k0 = PCB.INTERPOLATED_AVERAGE_KEY)) doc
        ≫= as_quantity /\
    PCB.carbon_coefficient self =
      last_value (fun k0 => bool_decide (k0 = KStr "carbon_coefficient"%string)) doc
        ≫= as_quantity /\
    forall k,
      dict_get (PCB.model self) k =
      if pcb_reserved k then None
      else last_value (fun k0 => bool_decide (k0 = k)) doc ≫= as_quantity.
Proof. apply PCB_init_table. Qed.

Lemma pcb_with_average_well_shaped : pcb_well_shaped pcb_with_average.
Proof.
  intros k v Hin. unfold pcb_with_average in Hin.
  apply elem_of_cons in Hin as [[= -> ->]|Hin]; [simpl; eauto|].
  apply list_elem_of_singleton in Hin as [= -> ->]. simpl; eauto.
Qed.

Lemma pcb_with_coefficient_well_shaped : pcb_well_shaped pcb_with_coefficient.
Proof.
  intros k v Hin. unfold pcb_with_coefficient in Hin.
  apply elem_of_cons in Hin as [[= -> ->]|Hin]; [simpl; eauto|].
  apply list_elem_of_singleton in Hin as [= -> ->]. simpl; eauto.
Qed.

(** X6 on [pcb_with_average]. *)
Lemma X6_witness :
  exists self,
    returns (PCB.__init__ pcb_with_average) self /\
    PCB.interpolated_cpla self = Some (per_area (Q2Qc (2 # 100))).
Proof.
  destruct (X6_PCB_tables_from_document pcb_with_average pcb_with_average_well_shaped)
    as (self & Hr & Hi & _).
  exists self. split; [exact Hr | exact Hi].
Defined.

(** ** What the constructors log *)

Lemma load_factors_run {T} `{EqDecision T} (of_value : ykey -> option T) (doc : document) :
  exists d, load_factors of_value doc []
            = (replicate (unknown_keys of_value doc) WARN, Return d).
Proof.
  destruct (load_factors_total of_value doc []) as [d Hd].
  pose proof (load_factors_log of_value doc []) as Hl.
  exists d. destruct (load_factors of_value doc []) as [l o].
  unfold returns in Hd. simpl in *. by subst.
Qed.

Lemma Inductor_load_log items self :
  fst (Inductor.load items self) = replicate (unknown_keys Inductor.of_value items) WARN.
Proof.
  revert self. induction items as [|[k v] items IH]; intros self; simpl; [done|].
  destruct (decide (k = KStr "weight_based"%string)) as [->|Hk].
  - simpl. specialize (IH (Inductor.mk (Some v) (Inductor.package_emission_factors self))).
    by destruct (Inductor.load items _) as [l [a|e|c]].
  - rewrite (bool_decide_eq_false_2 _ Hk).
    destruct (Inductor.of_value k) as [t|]; simpl.
    + specialize (IH (Inductor.mk (Inductor.weight_based_factor self)
                        (dict_setitem (Inductor.package_emission_factors self) t v))).
      by destruct (Inductor.load items _) as [l [a|e|c]].
    + specialize (IH self).
      destruct (Inductor.load items self) as [l [a|e|c]]; simpl in *; by f_equal.
Qed.

(** The log of a constructor that ran the loading loop and then [rest]. *)
Ltac constructor_log of_value doc :=
  let d := fresh "d" in
  let Hd := fresh "Hd" in
  destruct (load_factors_run of_value doc) as [d Hd];
  rewrite Hd; simpl;
  repeat match goal with
    | |- context [dict_contains ?k d] =>
        let Hc := fresh "Hc" in
        destruct (dict_contains k d) eqn:Hc; simpl
    | |- context [dict_is_empty d] => destruct (dict_is_empty d); simpl
    | Hc : dict_contains ?k d = true |- context [dict_getitem d ?k] =>
        let v := fresh "v" in
        let Hv := fresh "Hv" in
        apply dict_contains_true in Hc as [v Hv];
        rewrite (dict_getitem_Some _ _ _ Hv); simpl
    end;
  by rewrite ?app_nil_r.

(** X7.  The constructors that warn about unknown keys log exactly one
    warning for each key of the document that is the value of no member,
    whatever else the document holds, followed by one error line when
    they go on to terminate the process. *)
Theorem X7_one_warning_per_unknown_key (doc : document) :
  (Active.__init__ doc).1 =
    replicate (unknown_keys Active.of_value doc) WARN ++
    match outcome_of (Active.__init__ doc) with SystemExit _ => [ERROR] | _ => [] end /\
  (Diode.__init__ doc).1 =
    replicate (unknown_keys Diode.of_value doc) WARN ++
    match outcome_of (Diode.__init__ doc) with SystemExit _ => [ERROR] | _ => [] end /\
  (Other.__init__ doc).1 =
    replicate (unknown_keys Other.of_value doc) WARN ++
    match outcome_of (Other.__init__ doc) with SystemExit _ => [ERROR] | _ => [] end /\
  (Switch.__init__ doc).1 =
    replicate (unknown_keys Switch.of_value doc) WARN ++
    match outcome_of (Switch.__init__ doc) with SystemExit _ => [ERROR] | _ => [] end /\
  (Connector.__init__ doc).1 =
    replicate (unknown_keys Connector.of_value doc) WARN ++
    match outcome_of (Connector.__init__ doc) with SystemExit _ => [ERROR] | _ => [] end /\
  (Resistor.__init__ doc).1 =
    replicate (unknown_keys Resistor.of_value doc) WARN ++
    match outcome_of (Resistor.__init__ doc) with SystemExit _ => [ERROR] | _ => [] end /\
  (Inductor.__init__ doc).1 = replicate (unknown_keys Inductor.of_value doc) WARN.
Proof.
  repeat split.
  - unfold Active.__init__. constructor_log Active.of_value doc.
  - unfold Diode.__init__. constructor_log Diode.of_value doc.
  - unfold Other.__init__. constructor_log Other.of_value doc.
  - unfold Switch.__init__. constructor_log Switch.of_value doc.
  - unfold Connector.__init__. constructor_log Connector.of_value doc.
  - unfold Resistor.__init__. constructor_log Resistor.of_value doc.
  - unfold Inductor.__init__.
    pose proof (Inductor_load_log doc (Inductor.mk None [])) as Hl.
    destruct (Inductor_load_total doc (Inductor.mk None [])) as [s Hs].
    destruct (Inductor.load doc (Inductor.mk None [])) as [l o].
    unfold returns in Hs. simpl in *. subst.
    destruct (dict_contains Inductor.PKG_0805 (Inductor.package_emission_factors s))
      eqn:Hc; simpl; [|by rewrite app_nil_r].
    apply dict_contains_true in Hc as [v Hv].
    rewrite (dict_getitem_Some _ _ _ Hv). simpl. by rewrite app_nil_r.
Qed.

(** ** Calls: what is logged *)

(** A call on a mass-based model, log and outcome, from the lookups of the
    type and of the default member. *)
Ltac get_carbon_logged table Hw g Hg t :=
  unfold resolve; rewrite Hw;
  let f := fresh "f" in
  let Ht := fresh "Ht" in
  destruct (dict_get table t) as [f|] eqn:Ht;
  [ exists f; split; [done|];
    rewrite (proj2 (dict_contains_true _ _)) by (by rewrite Ht); simpl;
    by rewrite (dict_getitem_Some _ _ _ Ht)
  | exists g; split; [done|];
    rewrite (proj2 (dict_contains_false _ _) Ht); simpl;
    by rewrite (dict_getitem_Some _ _ _ Hg) ].

(** X8.  On a model its constructor returned, a call on Active, Diode or
    Other with a weight that is a mass logs a warning exactly when the
    requested type has no entry of its own, then computes with the
    [GENERIC] factor; otherwise it logs the debug line alone. *)
Theorem X8_warning_iff_type_missing (w : Quantity) (n : Z) :
  check w kg = true ->
  (forall doc self t, returns (Active.__init__ doc) self ->
     exists f, resolve (Active.emission_factors self) Active.GENERIC t = Some f /\
       Active.get_carbon self w t n =
       (if dict_contains t (Active.emission_factors self) then [DEBUG] else [WARN; DEBUG],
        Return (mkCarbon (w * f *z n) ACTIVE))) /\
  (forall doc self t, returns (Diode.__init__ doc) self ->
     exists f, resolve (Diode.emission_factors self) Diode.GENERIC t = Some f /\
       Diode.get_carbon self w t n =
       (if dict_contains t (Diode.emission_factors self) then [DEBUG] else [WARN; DEBUG],
        Return (mkCarbon (w * f *z n) FABRICATION))) /\
  (forall doc self t, returns (Other.__init__ doc) self ->
     exists f, resolve (Other.emission_factors self) Other.GENERIC t = Some f /\
       Other.get_carbon self w t n =
       (if dict_contains t (Other.emission_factors self) then [DEBUG] else [WARN; DEBUG],
        Return (mkCarbon (w * f *z n) OTHER))).
Proof.
  intros Hw. repeat split; intros doc self t Hinit.
  - destruct (Active_init_generic doc self Hinit) as [g Hg]. unfold Active.get_carbon.
    get_carbon_logged (Active.emission_factors self) Hw g Hg t.
  - destruct (Diode_init_generic doc self Hinit) as [g Hg]. unfold Diode.get_carbon.
    get_carbon_logged (Diode.emission_factors self) Hw g Hg t.
  - destruct (Other_init_generic doc self Hinit) as [g Hg]. unfold Other.get_carbon.
    get_carbon_logged (Other.emission_factors self) Hw g Hg t.
Qed.

(** X8 on the Active model built from [generic_5] and a type without an
    entry: a warning, then the generic factor. *)
Lemma X8_witness :
  exists f,
    resolve [(Active.GENERIC, mkQuantity (Qc_of_Z 5) dimensionless)] Active.GENERIC
      Active.TRANSISTOR_MOSFET = Some f /\
    Active.get_carbon (Active.mk [(Active.GENERIC, mkQuantity (Qc_of_Z 5) dimensionless)])
      (kilograms (Qc_of_Z 2)) Active.TRANSISTOR_MOSFET 3
    = ([WARN; DEBUG], Return (mkCarbon (kilograms (Qc_of_Z 2) * f *z 3) ACTIVE)).
Proof.
  assert (Hw : check (kilograms (Qc_of_Z 2)) kg = true) by reflexivity.
  assert (Hinit : returns (Active.__init__ generic_5)
            (Active.mk [(Active.GENERIC, mkQuantity (Qc_of_Z 5) dimensionless)]))
    by reflexivity.
  exact (proj1 (X8_warning_iff_type_missing _ 3 Hw) generic_5 _ Active.TRANSISTOR_MOSFET Hinit).
Defined.

(** X9.  On a Connector or Switch model its constructor returned the
    fallback is never taken: every member of the enumeration has an entry
    of its own, so a call with a weight that is a mass never warns and
    computes with the factor the document gives the requested type. *)
Theorem X9_Connector_and_Switch_never_warn (w : Quantity) (n : Z) :
  check w kg = true ->
  (forall doc self t, returns (Connector.__init__ doc) self ->
     exists f, doc_lookup Connector.of_value doc t = Some f /\
       Connector.get_carbon self w t n
       = ([DEBUG], Return (mkCarbon (w * f *z n) CONNECTOR))) /\
  (forall doc self t, returns (Switch.__init__ doc) self ->
     exists f, doc_lookup Switch.of_value doc t = Some f /\
       Switch.get_carbon self w t n
       = ([DEBUG], Return (mkCarbon (w * f *z n) SWITCH))).
Proof.
  intros Hw. split; intros doc self t Hinit.
  - destruct (Connector_init_required doc self Hinit) as [[p Hp] [c Hc]].
    assert (exists f, dict_get (Connector.emission_factors self) t = Some f) as [f Hf]
      by (destruct t; eauto).
    exists f. split; [by rewrite <- (Connector_init_table doc self t Hinit)|].
    unfold Connector.get_carbon. rewrite Hw.
    rewrite (proj2 (dict_contains_true _ _)) by (by rewrite Hf). simpl.
    by rewrite (dict_getitem_Some _ _ _ Hf).
  - destruct (Switch_init_generic doc self Hinit) as [f Hf]. destruct t.
    exists f. split; [by rewrite <- (Switch_init_table doc self _ Hinit)|].
    unfold Switch.get_carbon. rewrite Hw.
    rewrite (proj2 (dict_contains_true _ _)) by (by rewrite Hf). simpl.
    by rewrite (dict_getitem_Some _ _ _ Hf).
Qed.

(** X9 on the Switch model built from [generic_5]. *)
Lemma X9_witness :
  exists f,
    doc_lookup Switch.of_value generic_5 Switch.GENERIC = Some f /\
    Switch.get_carbon (Switch.mk [(Switch.GENERIC, mkQuantity (Qc_of_Z 5) dimensionless)])
      (kilograms (Qc_of_Z 2)) Switch.GENERIC 3
    = ([DEBUG], Return (mkCarbon (kilograms (Qc_of_Z 2) * f *z 3) SWITCH)).
Proof.
  assert (Hw : check (kilograms (Qc_of_Z 2)) kg = true) by reflexivity.
  assert (Hinit : returns (Switch.__init__ generic_5)
            (Switch.mk [(Switch.GENERIC, mkQuantity (Qc_of_Z 5) dimensionless)]))
    by reflexivity.
  exact (proj2 (X9_Connector_and_Switch_never_warn _ 3 Hw) generic_5 _ Switch.GENERIC Hinit).
Defined.

(** ** The inductor model: errors and the generic request *)

(** X10.  What a call on any inductor model can do besides returning: it
    raises [IndexError] exactly when a package type is requested without a
    weight and the package table is empty; it raises [AssertionError]
    exactly when a weight is supplied that is not a mass; it raises
    nothing else and never terminates the process. *)
Theorem X10_Inductor_error_cases (self : Inductor.InductorModel) (n : Z)
    (t : Inductor.InductorType) (weight : option Quantity) :
  (outcome_of (Inductor.get_carbon self n t weight) = Raise IndexError <->
   t <> Inductor.WEIGHT_BASED /\ weight = None /\
   Inductor.package_emission_factors self = []) /\
  (outcome_of (Inductor.get_carbon self n t weight) = Raise AssertionError <->
   exists X, weight = Some X /\ check X kg = false) /\
  (forall e, outcome_of (Inductor.get_carbon self n t weight) = Raise e ->
     e = IndexError \/ e = AssertionError) /\
  (forall c, outcome_of (Inductor.get_carbon self n t weight) <> SystemExit c).
Proof.
  destruct weight as [X|].
  - rewrite Inductor_get_carbon_weight.
    destruct (check X kg) eqn:HX; [destruct (Inductor.weight_based_factor self)|];
      simpl; repeat split; try done; try (by intros (_ & ? & _));
      try (by intros (? & [= <-] & ?); congruence);
      try (by intros e [= <-]; right);
      try (by intros _; eauto).
  - destruct (decide (t = Inductor.WEIGHT_BASED)) as [->|Hne].
    + simpl. repeat split; try done; try (by intros (? & _)); by intros (? & ? & _).
    + assert (Hpkg : t ∈ [Inductor.PKG_0201; Inductor.PKG_0402; Inductor.PKG_0603;
                          Inductor.PKG_0805; Inductor.GENERIC]).
      { destruct t; try (by destruct Hne); apply (bool_decide_unpack _); vm_compute;
          exact I. }
      destruct (Inductor.package_emission_factors self) as [|[k0 v0] rest] eqn:Hpef.
      * rewrite (Inductor_get_carbon_package_empty self n t Hpkg Hpef). simpl.
        repeat split; try done; try (by intros (? & ? & _)); by intros e [= <-]; left.
      * destruct (dict_get (Inductor.package_emission_factors self) t) as [f|] eqn:Ht.
        -- rewrite (Inductor_get_carbon_package_present self n t f Hpkg Ht). simpl.
           repeat split; try done; try (by intros (_ & _ & ?)); by intros (? & ? & _).
        -- rewrite (Inductor_get_carbon_package_absent self n t v0 (map snd rest) Hpkg Ht)
             by (by rewrite Hpef).
           simpl.
           repeat split; try done; try (by intros (_ & _ & ?)); by intros (? & ? & _).
Qed.

Lemma dict_empty_iff_lookups {K V} `{EqDecision K} (d : dict K V) :
  d = [] <-> forall k, dict_get d k = None.
Proof.
  split; [by intros ->|]. destruct d as [|[k v] d]; [done|].
  intros Hall. specialize (Hall k). simpl in Hall. by rewrite decide_True in Hall.
Qed.

Lemma doc_lookup_all_None {T} `{EqDecision T} (of_value : ykey -> option T) (doc : document) :
  (forall t, doc_lookup of_value doc t = None) <->
  (forall k v, (k, v) ∈ doc -> of_value k = None).
Proof.
  unfold doc_lookup. split.
  - intros Hall k v Hin. destruct (of_value k) as [t|] eqn:Hk; [|done].
    pose proof (proj1 (last_value_None _ doc) (Hall t) k v Hin) as Hb.
    by apply bool_decide_eq_false in Hb.
  - intros Hall t. apply last_value_None. intros k v Hin.
    apply bool_decide_eq_false_2. by rewrite (Hall k v Hin).
Qed.

Lemma Inductor_package_call_raises_iff self n t :
  t <> Inductor.WEIGHT_BASED ->
  outcome_of (Inductor.get_carbon self n t None) = Raise IndexError <->
  Inductor.package_emission_factors self = [].
Proof.
  intros Hne.
  assert (Hpkg : t ∈ [Inductor.PKG_0201; Inductor.PKG_0402; Inductor.PKG_0603;
                      Inductor.PKG_0805; Inductor.GENERIC]).
  { destruct t; try (by destruct Hne); apply (bool_decide_unpack _); vm_compute;
      exact I. }
  destruct (Inductor.package_emission_factors self) as [|[k0 v0] rest] eqn:Hpef.
  - by rewrite (Inductor_get_carbon_package_empty self n t Hpkg Hpef).
  - destruct (dict_get (Inductor.package_emission_factors self) t) as [f|] eqn:Ht.
    + by rewrite (Inductor_get_carbon_package_present self n t f Hpkg Ht).
    + rewrite (Inductor_get_carbon_package_absent self n t v0 (map snd rest) Hpkg Ht)
        by (by rewrite Hpef).
      done.
Qed.

(** X11.  On an inductor model its constructor returned, a call for a
    package type (or [GENERIC]) without a weight raises [IndexError]
    exactly when no key of the document, [weight_based] apart, is the
    value of a member of the enumeration. *)
Theorem X11_Inductor_call_raises_iff_no_package_key (doc : document)
    (self : Inductor.InductorModel) (n : Z) (t : Inductor.InductorType) :
  returns (Inductor.__init__ doc) self ->
  t <> Inductor.WEIGHT_BASED ->
  outcome_of (Inductor.get_carbon self n t None) = Raise IndexError <->
  (forall k v, (k, v) ∈ doc -> inductor_package_key k = None).
Proof.
  intros Hinit Hne. rewrite (Inductor_package_call_raises_iff self n t Hne).
  destruct (Inductor_init_table doc self Hinit) as [_ Hp].
  rewrite dict_empty_iff_lookups, <- doc_lookup_all_None. split.
  - intros Hall t'. destruct (decide (t' = Inductor.GENERIC)) as [->|Hg].
    + pose proof (Hall Inductor.GENERIC) as HG. pose proof (Hall Inductor.PKG_0805) as H8.
      rewrite Hp in HG, H8. simpl in HG, H8. by rewrite H8 in HG.
    + specialize (Hall t'). rewrite Hp in Hall. by rewrite decide_False in Hall.
  - intros Hall t'. rewrite Hp. rewrite !Hall. by destruct (decide _).
Qed.

(** X11 on [only_weight_based]: the call raises. *)
Lemma X11_witness :
  outcome_of (Inductor.get_carbon
                (Inductor.mk (Some (mkQuantity (Qc_of_Z 7) dimensionless)) [])
                2 Inductor.PKG_0603 None) = Raise IndexError.
Proof.
  assert (Hinit : returns (Inductor.__init__ only_weight_based)
            (Inductor.mk (Some (mkQuantity (Qc_of_Z 7) dimensionless)) []))
    by reflexivity.
  assert (Hne : Inductor.PKG_0603 <> Inductor.WEIGHT_BASED) by discriminate.
  apply (X11_Inductor_call_raises_iff_no_package_key only_weight_based _ 2 _ Hinit Hne).
  intros k v Hin. apply list_elem_of_singleton in Hin. injection Hin as -> ->.
  reflexivity.
Defined.

(** X12.  On an inductor model its constructor returned from a document
    with a ["0805"] factor [f], a call without a weight for [GENERIC]
    returns [f * n] without a warning, whatever factor the document gives
    under [generic]; and a call for a package type the document does not
    have returns [f * n] after a warning. *)
Theorem X12_Inductor_0805_serves_generic_and_missing (doc : document)
    (self : Inductor.InductorModel) (n : Z) (f : Quantity) :
  returns (Inductor.__init__ doc) self ->
  doc_lookup inductor_package_key doc Inductor.PKG_0805 = Some f ->
  Inductor.get_carbon self n Inductor.GENERIC None
    = ([DEBUG], Return (mkCarbon (f *z n) INDUCTOR)) /\
  forall t,
    t ∈ [Inductor.PKG_0201; Inductor.PKG_0402; Inductor.PKG_0603] ->
    doc_lookup inductor_package_key doc t = None ->
    Inductor.get_carbon self n t None
    = ([WARN; DEBUG], Return (mkCarbon (f *z n) INDUCTOR)).
Proof.
  intros Hinit H8. destruct (Inductor_init_table doc self Hinit) as [_ Hp].
  assert (Hf : dict_get (Inductor.package_emission_factors self) Inductor.PKG_0805 = Some f)
    by (by rewrite Hp).
  split.
  - apply Inductor_get_carbon_package_present.
    + apply (bool_decide_unpack _). vm_compute. exact I.
    + rewrite Hp. simpl. by rewrite H8.
  - intros t Ht Hnone.
    assert (Hpkg : t ∈ [Inductor.PKG_0201; Inductor.PKG_0402; Inductor.PKG_0603;
                        Inductor.PKG_0805; Inductor.GENERIC]).
    { repeat (apply elem_of_cons in Ht as [->|Ht]; [apply (bool_decide_unpack _);
        vm_compute; exact I|]). by apply elem_of_nil in Ht. }
    assert (Habs : dict_get (Inductor.package_emission_factors self) t = None).
    { rewrite Hp. rewrite decide_False; [done|]. intros ->.
      repeat (apply elem_of_cons in Ht as [Ht|Ht]; [discriminate|]).
      by apply elem_of_nil in Ht. }
    destruct (Inductor.package_emission_factors self) as [|[k0 v0] rest] eqn:Hpef;
      [done|].
    rewrite <- Hpef in *.
    rewrite (Inductor_get_carbon_package_absent self n t v0 (map snd rest) Hpkg Habs)
      by (by rewrite Hpef).
    unfold dict_get_default. by rewrite Hf.
Qed.

(** X12 on [inductor_generic_and_0805]: [generic] says five, ["0805"]
    says nine, the call for [GENERIC] uses nine. *)
Lemma X12_witness :
  Inductor.get_carbon
    (Inductor.mk None [(Inductor.GENERIC, kilograms (Qc_of_Z 9));
                       (Inductor.PKG_0805, kilograms (Qc_of_Z 9))])
    3 Inductor.GENERIC None
  = ([DEBUG], Return (mkCarbon (kilograms (Qc_of_Z 9) *z 3) INDUCTOR)).
Proof.
  assert (Hinit : returns (Inductor.__init__ inductor_generic_and_0805)
            (Inductor.mk None [(Inductor.GENERIC, kilograms (Qc_of_Z 9));
                               (Inductor.PKG_0805, kilograms (Qc_of_Z 9))]))
    by reflexivity.
  exact (proj1 (X12_Inductor_0805_serves_generic_and_missing
                  inductor_generic_and_0805 _ 3 _ Hinit eq_refl)).
Defined.

(** X13.  On a resistor model its constructor returned, a call for
    [GENERIC] returns, without a warning, the explicit [generic] factor
    times [n] when the document has one, and otherwise the ["0805"] factor
    times [n] when the document has that. *)
Theorem X13_Resistor_generic_request (doc : document) (self : Resistor.ResistorModel)
    (n : Z) :
  returns (Resistor.__init__ doc) self ->
  (forall g, doc_lookup Resistor.of_value doc Resistor.GENERIC = Some g ->
     Resistor.get_carbon self n Resistor.GENERIC
     = ([DEBUG], Return (mkCarbon (g *z n) FABRICATION))) /\
  (forall f, doc_lookup Resistor.of_value doc Resistor.GENERIC = None ->
     doc_lookup Resistor.of_value doc Resistor.PKG_0805 = Some f ->
     Resistor.get_carbon self n Resistor.GENERIC
     = ([DEBUG], Return (mkCarbon (f *z n) FABRICATION))).
Proof.
  intros Hinit. pose proof (Resistor_init_table doc self Resistor.GENERIC Hinit) as Hg.
  simpl in Hg. split.
  - intros g Hdoc. apply Resistor_get_carbon_present. by rewrite Hg, Hdoc.
  - intros f Hnone H8. apply Resistor_get_carbon_present. by rewrite Hg, Hnone.
Qed.

(** X13 on [resistor_generic_and_0805]: the explicit factor five is
    used. *)
Lemma X13_witness :
  Resistor.get_carbon
    (Resistor.mk [(Resistor.GENERIC, kilograms (Qc_of_Z 5));
                  (Resistor.PKG_0805, kilograms (Qc_of_Z 9))]) 3 Resistor.GENERIC
  = ([DEBUG], Return (mkCarbon (kilograms (Qc_of_Z 5) *z 3) FABRICATION)).
Proof.
  assert (Hinit : returns (Resistor.__init__ resistor_generic_and_0805)
            (Resistor.mk [(Resistor.GENERIC, kilograms (Qc_of_Z 5));
                          (Resistor.PKG_0805, kilograms (Qc_of_Z 9))]))
    by reflexivity.
  exact (proj1 (X13_Resistor_generic_request resistor_generic_and_0805 _ 3 Hinit)
           _ eq_refl).
Defined.

(** ** The capacitor model, from the document to the result *)

(** X14.  The capacitor model built from a document serves a package
    size from the document alone: its factor times [n], or the default
    carbon per capacitor times [n] when the document has no such key;
    weight, location and the carbon-intensity table play no part and
    nothing is raised.  It serves [mlcc], [tec] and [generic] by the
    energy formula when the document has the key, which raises [KeyError]
    when the location is not in the carbon-intensity table, and by the
    default otherwise. *)
Theorem X14_Capacitor_call_from_document (doc : document)
    (ci_table : dict EnergyLocation Quantity) :
  exists self,
    Capacitor.__init__ doc ci_table = ([], Return self) /\
    forall ci t w n,
      Capacitor.get_carbon self ci t w n =
      match doc_lookup Capacitor.of_value doc t with
      | None =>
          ([], Return (mkCarbon (Capacitor.DEFAULT_CARBON_PER_CAPACITOR *z n) PASSIVES))
      | Some f =>
          if bool_decide (t ∈ [Capacitor.MLCC; Capacitor.TEC; Capacitor.GENERIC]) then
            match dict_get ci_table ci with
            | Some c => ([], Return (mkCarbon (f * w *z n * c) PASSIVES))
            | None => ([], Raise KeyError)
            end
          else ([], Return (mkCarbon (f *z n) PASSIVES))
      end.
Proof.
  destruct (Capacitor_init_tables doc ci_table) as (self & Hinit & Hci & Htab).
  exists self. split; [done|]. intros ci t w n.
  destruct (Htab t) as [Hcm Hpm].
  destruct (bool_decide (t ∈ [Capacitor.MLCC; Capacitor.TEC; Capacitor.GENERIC]));
    destruct (doc_lookup Capacitor.of_value doc t) as [f|].
  - destruct (dict_get ci_table ci) as [c|] eqn:Hc.
    + apply Capacitor_get_carbon_energy; try done. by rewrite Hci.
    + unfold Capacitor.get_carbon.
      rewrite (proj2 (dict_contains_false _ _) Hpm).
      rewrite (proj2 (dict_contains_true _ _)) by (by rewrite Hcm).
      rewrite (dict_getitem_Some _ _ _ Hcm). rewrite <- Hci in Hc.
      by rewrite (dict_getitem_None _ _ Hc).
  - by apply Capacitor_get_carbon_rescue.
  - by apply Capacitor_get_carbon_package.
  - by apply Capacitor_get_carbon_rescue.
Qed.

(** X15.  Whatever its tables hold, a call on a capacitor model never
    terminates the process and raises nothing but [KeyError], and that
    exactly when the type is served by the energy table and the location
    has no entry in the carbon-intensity table. *)
Theorem X15_Capacitor_error_cases (self : Capacitor.CapacitorModel) (ci : EnergyLocation)
    (t : Capacitor.CapacitorType) (w : Quantity) (n : Z) :
  (outcome_of (Capacitor.get_carbon self ci t w n) = Raise KeyError <->
   dict_get (Capacitor.package_model self) t = None /\
   is_Some (dict_get (Capacitor.capacitor_model self) t) /\
   dict_get (Capacitor.ci_model self) ci = None) /\
  (forall e, outcome_of (Capacitor.get_carbon self ci t w n) = Raise e -> e = KeyError) /\
  (forall c, outcome_of (Capacitor.get_carbon self ci t w n) <> SystemExit c).
Proof.
  destruct (dict_get (Capacitor.package_model self) t) as [f|] eqn:Hp.
  - rewrite (Capacitor_get_carbon_package self ci t w n f Hp). simpl.
    repeat split; try done. by intros (? & _).
  - destruct (dict_get (Capacitor.capacitor_model self) t) as [e|] eqn:He.
    + destruct (dict_get (Capacitor.ci_model self) ci) as [c|] eqn:Hc.
      * rewrite (Capacitor_get_carbon_energy self ci t w n e c Hp He Hc). simpl.
        repeat split; try done. by intros (_ & _ & ?).
      * unfold Capacitor.get_carbon.
        rewrite (proj2 (dict_contains_false _ _) Hp).
        rewrite (proj2 (dict_contains_true _ _)) by (by rewrite He).
        rewrite (dict_getitem_Some _ _ _ He), (dict_getitem_None _ _ Hc). simpl.
        repeat split; try done; try (by eexists); by intros ? [= <-].
    + rewrite (Capacitor_get_carbon_rescue self ci t w n Hp He). simpl.
      repeat split; try done. by intros (_ & [? ?] & _).
Qed.

(** ** The PCB model: the thickness path and the document *)

(** X16.  The PCB model built from a document of the documented shape,
    called with a thickness on an area that is an area, returns [area *
    layers * thickness * carbon_coefficient] when the document has the
    key [carbon_coefficient]: the layer table and the interpolated average
    are not consulted, so the call cannot terminate the process, and the
    dimension of the thickness is not checked.  When the document has no
    such key the thickness is ignored: the call does what the call without
    a thickness does. *)
Theorem X16_PCB_thickness_from_document (doc : dict ykey PCB.yvalue) :
  pcb_well_shaped doc ->
  exists self,
    returns (PCB.__init__ doc) self /\
    forall A L thickness, check A mm2 = true ->
      PCB.get_carbon self A L (Some thickness) =
      match last_value (fun k0 => bool_decide (k0 = KStr "carbon_coefficient"%string)) doc
              ≫= as_quantity with
      | Some c => ([DEBUG], Return (mkCarbon (A *z L * thickness * c) FABRICATION))
      | None => PCB.get_carbon self A L None
      end.
Proof.
  intros Hws. destruct (PCB_init_table doc Hws) as (self & Hinit & _ & Hc & _).
  exists self. split; [done|]. intros A L thickness HA. rewrite <- Hc.
  unfold PCB.get_carbon. rewrite HA.
  by destruct (PCB.carbon_coefficient self).
Qed.

(** X16 on [pcb_with_coefficient]: six layers are not a key and there is
    no average, yet the call with a thickness returns. *)
Lemma X16_witness :
  exists self,
    returns (PCB.__init__ pcb_with_coefficient) self /\
    PCB.get_carbon self area_100 6 (Some five_mm)
    = ([DEBUG],
       Return (mkCarbon (area_100 *z 6 * five_mm * per_area (Q2Qc (2 # 100))) FABRICATION)).
Proof.
  destruct (X16_PCB_thickness_from_document pcb_with_coefficient
              pcb_with_coefficient_well_shaped) as (self & Hr & Hcall).
  exists self. split; [exact Hr|].
  exact (Hcall area_100 6%Z five_mm eq_refl).
Defined.

(** X17.  The PCB model built from a document of the documented shape,
    called without a thickness on an area that is an area, returns the
    value under the key [L] times the area when the document has that
    key; otherwise the value under [cpla] times [L] times the area when
    the document has [cpla]; and terminates the process exactly when the
    document has neither. *)
Theorem X17_PCB_call_from_document (doc : dict ykey PCB.yvalue) :
  pcb_well_shaped doc ->
  exists self,
    returns (PCB.__init__ doc) self /\
    forall A L, check A mm2 = true ->
      PCB.get_carbon self A L None =
      match last_value (fun k0 => bool_decide (k0 = KInt L)) doc ≫= as_quantity with
      | Some f => ([DEBUG], Return (mkCarbon (f * A) FABRICATION))
      | None =>
          match last_value (fun k0 => bool_decide (k0 = PCB.INTERPOLATED_AVERAGE_KEY)) doc
                  ≫= as_quantity with
          | Some avg => ([DEBUG], Return (mkCarbon (avg *z L * A) FABRICATION))
          | None => ([CRITICAL], SystemExit (-1))
          end
      end.
Proof.
  intros Hws. destruct (PCB_init_table doc Hws) as (self & Hinit & Hi & _ & Hm).
  exists self. split; [done|]. intros A L HA.
  specialize (Hm (KInt L)). simpl in Hm. rewrite <- Hm, <- Hi.
  unfold PCB.get_carbon. rewrite HA. unfold assert. rewrite bind_ret.
  destruct (dict_get (PCB.model self) (KInt L)) as [f|] eqn:Hf.
  - rewrite (proj2 (dict_contains_true _ _)) by (by rewrite Hf).
    by rewrite (dict_getitem_Some _ _ _ Hf).
  - rewrite (proj2 (dict_contains_false _ _) Hf).
    by destruct (PCB.interpolated_cpla self).
Qed.

(** X17 on [pcb_with_average]: seven layers are not a key, the average
    is used. *)
Lemma X17_witness :
  exists self,
    returns (PCB.__init__ pcb_with_average) self /\
    PCB.get_carbon self area_100 7 None
    = ([DEBUG], Return (mkCarbon (per_area (Q2Qc (2 # 100)) *z 7 * area_100) FABRICATION)).
Proof.
  destruct (X17_PCB_call_from_document pcb_with_average pcb_with_average_well_shaped)
    as (self & Hr & Hcall).
  exists self. split; [exact Hr|].
  exact (Hcall area_100 7%Z eq_refl).
Defined.

(** ** The order of the document *)

(** Distinct keys are the values of distinct members. *)
Ltac of_value_inj :=
  let k1 := fresh "k1" in
  let k2 := fresh "k2" in
  let t := fresh "t" in
  intros [k1|?] [k2|?] t; simpl; try done;
  repeat case_bool_decide; subst; try done;
  intros; congruence.

Lemma Active_of_value_inj k1 k2 t :
  Active.of_value k1 = Some t -> Active.of_value k2 = Some t -> k1 = k2.
Proof. revert k1 k2 t. of_value_inj. Qed.

Lemma Connector_of_value_inj k1 k2 t :
  Connector.of_value k1 = Some t -> Connector.of_value k2 = Some t -> k1 = k2.
Proof. revert k1 k2 t. of_value_inj. Qed.

Lemma Diode_of_value_inj k1 k2 t :
  Diode.of_value k1 = Some t -> Diode.of_value k2 = Some t -> k1 = k2.
Proof. revert k1 k2 t. of_value_inj. Qed.

Lemma Other_of_value_inj k1 k2 t :
  Other.of_value k1 = Some t -> Other.of_value k2 = Some t -> k1 = k2.
Proof. revert k1 k2 t. of_value_inj. Qed.

Lemma Switch_of_value_inj k1 k2 t :
  Switch.of_value k1 = Some t -> Switch.of_value k2 = Some t -> k1 = k2.
Proof. revert k1 k2 t. of_value_inj. Qed.

Lemma Resistor_of_value_inj k1 k2 t :
  Resistor.of_value k1 = Some t -> Resistor.of_value k2 = Some t -> k1 = k2.
Proof. revert k1 k2 t. of_value_inj. Qed.

Section order.
Context {T : Type} `{EqDecision T} (of_value : ykey -> option T).
Hypothesis of_value_inj :
  forall k1 k2 t, of_value k1 = Some t -> of_value k2 = Some t -> k1 = k2.

Lemma doc_lookup_perm (doc doc' : document) (t : T) :
  NoDup (map fst doc) -> doc ≡ₚ doc' ->
  doc_lookup of_value doc t = doc_lookup of_value doc' t.
Proof using of_value_inj.
  intros Hnd Hperm. unfold doc_lookup. apply last_value_perm; [done| |done].
  intros k1 k2 H1 H2. apply bool_decide_eq_true in H1, H2. by apply (of_value_inj k1 k2 t).
Qed.

Lemma names_perm (doc doc' : document) (t : T) :
  doc ≡ₚ doc' -> names of_value doc t <-> names of_value doc' t.
Proof.
  intros Hperm. unfold names. split; intros (k & v & Hin & Hof); exists k, v;
    (split; [|done]); [by rewrite <- Hperm | by rewrite Hperm].
Qed.

(** After a first entry of type [t0] that no later key names, the table
    keeps that entry in front. *)
Lemma load_factors_keeps_head (items : document) (t0 : T) (v0 : Quantity)
    (d d' : dict T Quantity) :
  (forall k v, (k, v) ∈ items -> of_value k <> Some t0) ->
  returns (load_factors of_value items ((t0, v0) :: d)) d' ->
  exists d1, d' = (t0, v0) :: d1.
Proof.
  revert d. induction items as [|[k v] items IH]; intros d Hno; simpl.
  - unfold returns; simpl. intros [= <-]. by eexists.
  - unfold returns. rewrite outcome_bind.
    assert (Hrest : forall k0 v1, (k0, v1) ∈ items -> of_value k0 <> Some t0)
      by (intros k0 v1 Hin; apply (Hno k0 v1); by right).
    destruct (of_value k) as [t'|] eqn:Hk; simpl.
    + rewrite decide_False.
      * apply IH. done.
      * intros ->. by apply (Hno k v (list_elem_of_here _ _)).
    + by apply IH.
Qed.

Lemma load_factors_head (doc : document) (d : dict T Quantity) :
  NoDup (map fst doc) ->
  returns (load_factors of_value doc []) d ->
  head (dict_values d) = first_known of_value doc.
Proof using of_value_inj.
  induction doc as [|[k v] doc IH]; simpl; intros Hnd.
  - unfold returns; simpl. by intros [= <-].
  - apply NoDup_cons in Hnd as [Hnotin Hnd].
    unfold returns. rewrite outcome_bind.
    destruct (of_value k) as [t0|] eqn:Hk; simpl; [|by apply IH].
    intros Hr. apply load_factors_keeps_head in Hr as [d1 ->]; [done|].
    intros k' v' Hin Hof. destruct Hnotin.
    rewrite (of_value_inj k k' t0 Hk Hof).
    apply list_elem_of_fmap. by exists (k', v').
Qed.
End order.

(** A constructor that either returns or terminates, composed with a call
    that reads the table only through lookups. *)
Lemma constructed_call_outcome_eq {Model} (init : document -> M Model)
    (call : Model -> M Carbon) (doc doc' : document) :
  (forall dc, (exists s, returns (init dc) s) \/ outcome_of (init dc) = SystemExit (-1)) ->
  (outcome_of (init doc) = SystemExit (-1) <-> outcome_of (init doc') = SystemExit (-1)) ->
  (forall s s', returns (init doc) s -> returns (init doc') s' -> call s = call s') ->
  outcome_of (bind (init doc) call) = outcome_of (bind (init doc') call).
Proof.
  intros Htot Hexit Hcall. rewrite !outcome_bind.
  destruct (Htot doc) as [[s Hs]|Hx]; destruct (Htot doc') as [[s' Hs']|Hx'].
  - unfold returns in Hs, Hs'. rewrite Hs, Hs'. by rewrite (Hcall s s').
  - apply Hexit in Hx'. unfold returns in Hs. congruence.
  - apply Hexit in Hx. unfold returns in Hs'. congruence.
  - by rewrite Hx, Hx'.
Qed.

(** A constructor that ran the loading loop returns or terminates. *)
Ltac constructor_outcome of_value dc :=
  let d := fresh "d" in
  let Hd := fresh "Hd" in
  unfold returns;
  destruct (load_factors_run of_value dc) as [d Hd];
  rewrite Hd; simpl;
  repeat match goal with
    | |- context [dict_contains ?k d] =>
        let Hc := fresh "Hc" in
        destruct (dict_contains k d) eqn:Hc; simpl
    | Hc : dict_contains ?k d = true |- context [dict_getitem d ?k] =>
        let v := fresh "v" in
        let Hv := fresh "Hv" in
        apply dict_contains_true in Hc as [v Hv];
        rewrite (dict_getitem_Some _ _ _ Hv); simpl
    end;
  eauto.

Lemma Active_init_outcome dc :
  (exists s, returns (Active.__init__ dc) s) \/
  outcome_of (Active.__init__ dc) = SystemExit (-1).
Proof. unfold Active.__init__. constructor_outcome Active.of_value dc. Qed.

Lemma Diode_init_outcome dc :
  (exists s, returns (Diode.__init__ dc) s) \/
  outcome_of (Diode.__init__ dc) = SystemExit (-1).
Proof. unfold Diode.__init__. constructor_outcome Diode.of_value dc. Qed.

Lemma Other_init_outcome dc :
  (exists s, returns (Other.__init__ dc) s) \/
  outcome_of (Other.__init__ dc) = SystemExit (-1).
Proof. unfold Other.__init__. constructor_outcome Other.of_value dc. Qed.

Lemma Switch_init_outcome dc :
  (exists s, returns (Switch.__init__ dc) s) \/
  outcome_of (Switch.__init__ dc) = SystemExit (-1).
Proof. unfold Switch.__init__. constructor_outcome Switch.of_value dc. Qed.

Lemma Connector_init_outcome dc :
  (exists s, returns (Connector.__init__ dc) s) \/
  outcome_of (Connector.__init__ dc) = SystemExit (-1).
Proof. unfold Connector.__init__. constructor_outcome Connector.of_value dc. Qed.

(** A call reads the table through lookups only. *)
Ltac call_reads_lookups Heq :=
  unfold dict_contains, dict_getitem; simpl; by rewrite !Heq.

(** X18.  The order of the entries of a document with distinct keys does
    not matter to the mass-based models: constructing from the document
    or from any permutation of it and then calling [get_carbon] with the
    same arguments has the same outcome, be it the carbon value, the
    assertion failure or the termination at construction. *)
Theorem X18_mass_based_order_independent (doc doc' : document) (w : Quantity) (n : Z) :
  NoDup (map fst doc) -> doc ≡ₚ doc' ->
  (forall t, outcome_of (self <- Active.__init__ doc ;; Active.get_carbon self w t n)
             = outcome_of (self <- Active.__init__ doc' ;; Active.get_carbon self w t n)) /\
  (forall t, outcome_of (self <- Connector.__init__ doc ;; Connector.get_carbon self w t n)
             = outcome_of (self <- Connector.__init__ doc' ;;
                           Connector.get_carbon self w t n)) /\
  (forall t, outcome_of (self <- Diode.__init__ doc ;; Diode.get_carbon self w t n)
             = outcome_of (self <- Diode.__init__ doc' ;; Diode.get_carbon self w t n)) /\
  (forall t, outcome_of (self <- Other.__init__ doc ;; Other.get_carbon self w t n)
             = outcome_of (self <- Other.__init__ doc' ;; Other.get_carbon self w t n)) /\
  (forall t, outcome_of (self <- Switch.__init__ doc ;; Switch.get_carbon self w t n)
             = outcome_of (self <- Switch.__init__ doc' ;; Switch.get_carbon self w t n)).
Proof.
  intros Hnd Hperm. repeat split; intros t.
  - apply constructed_call_outcome_eq; [apply Active_init_outcome| |].
    + by rewrite !Active_init_exit, !(names_perm Active.of_value doc doc').
    + intros [ef] [ef'] Hs Hs'. unfold Active.get_carbon.
      assert (Heq : forall t0, dict_get ef t0 = dict_get ef' t0).
      { intros t0.
        pose proof (Active_init_table doc _ t0 Hs) as H1.
        pose proof (Active_init_table doc' _ t0 Hs') as H2. simpl in H1, H2.
        rewrite H1, H2.
        by rewrite !(doc_lookup_perm Active.of_value Active_of_value_inj doc doc'). }
      call_reads_lookups Heq.
  - apply constructed_call_outcome_eq; [apply Connector_init_outcome| |].
    + by rewrite !Connector_init_exit, !(names_perm Connector.of_value doc doc').
    + intros [ef] [ef'] Hs Hs'. unfold Connector.get_carbon.
      assert (Heq : forall t0, dict_get ef t0 = dict_get ef' t0).
      { intros t0.
        pose proof (Connector_init_table doc _ t0 Hs) as H1.
        pose proof (Connector_init_table doc' _ t0 Hs') as H2. simpl in H1, H2.
        rewrite H1, H2.
        by rewrite !(doc_lookup_perm Connector.of_value Connector_of_value_inj doc doc'). }
      call_reads_lookups Heq.
  - apply constructed_call_outcome_eq; [apply Diode_init_outcome| |].
    + by rewrite !Diode_init_exit, !(names_perm Diode.of_value doc doc').
    + intros [ef] [ef'] Hs Hs'. unfold Diode.get_carbon.
      assert (Heq : forall t0, dict_get ef t0 = dict_get ef' t0).
      { intros t0.
        pose proof (Diode_init_table doc _ t0 Hs) as H1.
        pose proof (Diode_init_table doc' _ t0 Hs') as H2. simpl in H1, H2.
        rewrite H1, H2.
        by rewrite !(doc_lookup_perm Diode.of_value Diode_of_value_inj doc doc'). }
      call_reads_lookups Heq.
  - apply constructed_call_outcome_eq; [apply Other_init_outcome| |].
    + by rewrite !Other_init_exit, !(names_perm Other.of_value doc doc').
    + intros [ef] [ef'] Hs Hs'. unfold Other.get_carbon.
      assert (Heq : forall t0, dict_get ef t0 = dict_get ef' t0).
      { intros t0.
        pose proof (Other_init_table doc _ t0 Hs) as H1.
        pose proof (Other_init_table doc' _ t0 Hs') as H2. simpl in H1, H2.
        rewrite H1, H2.
        by rewrite !(doc_lookup_perm Other.of_value Other_of_value_inj doc doc'). }
      call_reads_lookups Heq.
  - apply constructed_call_outcome_eq; [apply Switch_init_outcome| |].
    + by rewrite !Switch_init_exit, !(names_perm Switch.of_value doc doc').
    + intros [ef] [ef'] Hs Hs'. unfold Switch.get_carbon.
      assert (Heq : forall t0, dict_get ef t0 = dict_get ef' t0).
      { intros t0.
        pose proof (Switch_init_table doc _ t0 Hs) as H1.
        pose proof (Switch_init_table doc' _ t0 Hs') as H2. simpl in H1, H2.
        rewrite H1, H2.
        by rewrite !(doc_lookup_perm Switch.of_value Switch_of_value_inj doc doc'). }
      call_reads_lookups Heq.
Qed.

(** X18 on a two-entry document and its reversal. *)
Lemma X18_witness :
  outcome_of (self <- Active.__init__ active_two ;;
              Active.get_carbon self (kilograms (Qc_of_Z 2)) Active.TRANSISTOR_BJT 3)
  = outcome_of (self <- Active.__init__ (reverse active_two) ;;
                Active.get_carbon self (kilograms (Qc_of_Z 2)) Active.TRANSISTOR_BJT 3).
Proof.
  assert (Hnd : NoDup (map fst active_two))
    by (apply (bool_decide_unpack _); vm_compute; exact I).
  assert (Hperm : active_two ≡ₚ reverse active_two) by (symmetry; apply reverse_Permutation).
  exact (proj1 (X18_mass_based_order_independent active_two (reverse active_two)
                  (kilograms (Qc_of_Z 2)) 3 Hnd Hperm) Active.TRANSISTOR_BJT).
Defined.

(** X19.  The resistor fallback depends on the order of the document:
    on a model built from a document with distinct keys and without
    ["0805"], a call for a type without an entry returns, after a warning,
    the factor of the first entry of the document whose key is a known
    package type, times [n]. *)
Theorem X19_Resistor_fallback_is_first_known_entry (doc : document)
    (self : Resistor.ResistorModel) (n : Z) (t : Resistor.ResistorType) :
  NoDup (map fst doc) ->
  returns (Resistor.__init__ doc) self ->
  doc_lookup Resistor.of_value doc Resistor.PKG_0805 = None ->
  dict_get (Resistor.emission_factors self) t = None ->
  exists v0,
    first_known Resistor.of_value doc = Some v0 /\
    Resistor.get_carbon self n t
    = ([WARN; DEBUG], Return (mkCarbon (v0 *z n) FABRICATION)).
Proof.
  intros Hnd Hinit H8 Ht.
  pose proof (Resistor_init_table doc self Resistor.PKG_0805 Hinit) as Hno.
  simpl in Hno. rewrite H8 in Hno.
  assert (Hhead : head (dict_values (Resistor.emission_factors self))
                  = first_known Resistor.of_value doc).
  { revert Hinit. unfold Resistor.__init__.
    destruct (load_factors_total Resistor.of_value doc []) as [d Hd].
    pose proof (load_factors_head Resistor.of_value Resistor_of_value_inj doc d Hnd Hd)
      as Hh.
    pose proof (load_factors_lookup_empty Resistor.of_value doc d Resistor.PKG_0805 Hd)
      as Hl.
    rewrite H8 in Hl. init_cases Hd.
    destruct (dict_is_empty d); simpl; run; [discriminate|].
    rewrite (proj2 (dict_contains_false _ _) Hl). simpl. run. by intros [= <-]. }
  pose proof (Resistor_init_not_empty doc self Hinit) as Hne.
  destruct (dict_not_empty_values _ Hne) as (x & xs & Hv).
  rewrite Hv in Hhead. simpl in Hhead. exists x. split; [done|].
  rewrite (Resistor_get_carbon_absent self n t x xs Ht Hv).
  unfold dict_get_default. by rewrite Hno.
Qed.

(** X19 on [resistor_two]: ["0603"] comes first, its factor serves a call
    for ["0201"]. *)
Lemma X19_witness :
  exists v0,
    first_known Resistor.of_value resistor_two = Some v0 /\
    Resistor.get_carbon
      (Resistor.mk [(Resistor.PKG_0603, kilograms (Qc_of_Z 3));
                    (Resistor.PKG_0402, kilograms (Qc_of_Z 2))]) 4 Resistor.PKG_0201
    = ([WARN; DEBUG], Return (mkCarbon (v0 *z 4) FABRICATION)).
Proof.
  assert (Hnd : NoDup (map fst resistor_two))
    by (apply (bool_decide_unpack _); vm_compute; exact I).
  assert (Hinit : returns (Resistor.__init__ resistor_two)
            (Resistor.mk [(Resistor.PKG_0603, kilograms (Qc_of_Z 3));
                          (Resistor.PKG_0402, kilograms (Qc_of_Z 2))]))
    by reflexivity.
  exact (X19_Resistor_fallback_is_first_known_entry resistor_two _ 4 Resistor.PKG_0201
           Hnd Hinit eq_refl eq_refl).
Defined.

(** ** Source categories *)

Lemma outcome_dict_getitem {K V} `{EqDecision K} (d : dict K V) k :
  outcome_of (dict_getitem d k) =
  match dict_get d k with Some v => Return v | None => Raise KeyError end.
Proof. unfold dict_getitem. by destruct (dict_get d k). Qed.

Lemma outcome_assert b :
  outcome_of (assert b) = if b then Return tt else Raise AssertionError.
Proof. by destruct b. Qed.

Lemma outcome_getitem0 {A} (xs : list A) :
  outcome_of (getitem0 xs) = match xs with [] => Raise IndexError | x :: _ => Return x end.
Proof. by destruct xs. Qed.

(** Follow every way out of a call that returns a value. *)
Ltac all_returns :=
  unfold returns;
  repeat first
    [ rewrite outcome_bind | rewrite outcome_ret | rewrite outcome_log
    | rewrite outcome_dict_getitem | rewrite outcome_assert | rewrite outcome_getitem0
    | match goal with
      | |- context [match ?x with _ => _ end] => destruct x
      end ];
  simpl; try done; try (by intros [= <-]).

(** X20.  Every carbon value a model returns carries the source category
    of that model, whatever the arguments and the tables: [ACTIVE],
    [CONNECTOR], [OTHER], [SWITCH], [INDUCTOR] and [PASSIVES] for the
    models of those names, and [FABRICATION] for Diode, Resistor and
    PCB. *)
Theorem X20_source_category_of_each_model (c : Carbon) :
  (forall self w t n, returns (Active.get_carbon self w t n) c -> source c = ACTIVE) /\
  (forall self w t n, returns (Connector.get_carbon self w t n) c -> source c = CONNECTOR) /\
  (forall self w t n, returns (Diode.get_carbon self w t n) c -> source c = FABRICATION) /\
  (forall self w t n, returns (Other.get_carbon self w t n) c -> source c = OTHER) /\
  (forall self w t n, returns (Switch.get_carbon self w t n) c -> source c = SWITCH) /\
  (forall self n t, returns (Resistor.get_carbon self n t) c -> source c = FABRICATION) /\
  (forall self n t w, returns (Inductor.get_carbon self n t w) c -> source c = INDUCTOR) /\
  (forall self ci t w n, returns (Capacitor.get_carbon self ci t w n) c ->
     source c = PASSIVES) /\
  (forall self a l th, returns (PCB.get_carbon self a l th) c -> source c = FABRICATION).
Proof.
  repeat split.
  - intros self w t n. unfold Active.get_carbon. all_returns.
  - intros self w t n. unfold Connector.get_carbon. all_returns.
  - intros self w t n. unfold Diode.get_carbon. all_returns.
  - intros self w t n. unfold Other.get_carbon. all_returns.
  - intros self w t n. unfold Switch.get_carbon. all_returns.
  - intros self n t. unfold Resistor.get_carbon. all_returns.
  - intros self n t w. unfold Inductor.get_carbon. all_returns.
  - intros self ci t w n. unfold Capacitor.get_carbon. all_returns.
  - intros self a l th. unfold PCB.get_carbon. all_returns.
Qed.
